(** * resume_analysis_bot.py: a shallow embedding and its properties

    The program reads the path of a PDF resume, extracts its text, sends it
    inside a fixed prompt to a chat-completion HTTP server and then loops over
    follow-up questions.  The embedding below follows
    [src/resume_analysis_bot.py] function by function:

    - [PyStr]      the [str] methods the program calls ([strip], [lower],
                   slicing, [str.format]);
    - [Json]       the Python value that [response.json()] yields, with the
                   [dict.get] and [[0]] operations of [CustomLLM._call];
    - [Http]       what [requests.post] and [raise_for_status] can do;
    - [Bot]        [CustomLLM._call], [run_analysis] and [main], as functions
                   from the outside world (file system, PDF library, server,
                   standard input) to the trace of what the program did.

    Strings are Rocq strings, one [ascii] per character: the model covers
    Python strings whose code points are below 256, for which [isspace] and
    [lower] are given exactly. *)

From stdpp Require Import gmap strings list pretty.
From Stdlib Require Import Ascii String ZArith QArith Lia.

Set Warnings "-register-all".
Close Scope Q_scope.
Open Scope string_scope.

(** ** Python results: a value or a raised exception *)

Inductive exn :=
| IndexError
| KeyError
| TypeError
| AttributeError
| ValueError
| JSONDecodeError
| EOFError
| RecursionError
| UnicodeError
| OtherError (name : string).

Inductive result (A : Type) :=
| Ret (a : A)
| Raise (e : exn).
Arguments Ret {A} a.
Arguments Raise {A} e.

Definition bind {A B} (r : result A) (k : A -> result B) : result B :=
  match r with
  | Ret a => k a
  | Raise e => Raise e
  end.

Notation "x <- r ;; k" := (bind r (fun x => k))
  (at level 100, r at next level, right associativity).

(** ** Python strings *)

Module PyStr.

(** The line feed, written ["\n"] in the source. *)
Definition nl : string := String (ascii_of_nat 10) "".

(** The double quote character, the argument of the second [strip] in [main]. *)
Definition dquote : ascii := ascii_of_nat 34.

(** [str.isspace] on one character, for code points below 256:
    TAB, LF, VT, FF, CR, FS, GS, RS, US, SPACE, NEL and NBSP. *)
Definition isspace (c : ascii) : bool :=
  let n := nat_of_ascii c in
  (((9 <=? n) && (n <=? 13)) || ((28 <=? n) && (n <=? 32))
   || (n =? 133) || (n =? 160))%nat.

(** [s.lstrip(chars)], with the stripped characters given as a predicate. *)
Fixpoint lstrip_with (p : ascii -> bool) (s : string) : string :=
  match s with
  | "" => ""
  | String c s' => if p c then lstrip_with p s' else s
  end.

(** [s.rstrip(chars)]. *)
Fixpoint rstrip_with (p : ascii -> bool) (s : string) : string :=
  match s with
  | "" => ""
  | String c s' =>
      match rstrip_with p s' with
      | "" => if p c then "" else String c ""
      | r => String c r
      end
  end.

Definition strip_with (p : ascii -> bool) (s : string) : string :=
  rstrip_with p (lstrip_with p s).

(** [s.strip()] *)
Definition strip (s : string) : string := strip_with isspace s.

(** [s.strip(c)] with the double quote as [c] *)
Definition strip_quotes (s : string) : string :=
  strip_with (fun c => Ascii.eqb c dquote) s.

(** [str.lower] on one character, for code points below 256: the letters
    A-Z and the Latin-1 capitals 192-222 (without the multiplication sign
    215) move up by 32, everything else stays. *)
Definition lower_char (c : ascii) : ascii :=
  let n := nat_of_ascii c in
  if (((65 <=? n) && (n <=? 90))
      || ((192 <=? n) && (n <=? 222) && negb (n =? 215)))%nat
  then ascii_of_nat (n + 32)
  else c.

Fixpoint lower (s : string) : string :=
  match s with
  | "" => ""
  | String c s' => String (lower_char c) (lower s')
  end.

(** The slice [s[:n]]. *)
Fixpoint take (n : nat) (s : string) : string :=
  match n, s with
  | S n', String c s' => String c (take n' s')
  | _, _ => ""
  end.

(** [x in l] for a list of strings. *)
Fixpoint mem (x : string) (l : list string) : bool :=
  match l with
  | [] => false
  | y :: l' => String.eqb x y || mem x l'
  end.

(** Truthiness of a string: [not s] holds exactly for the empty one. *)
Definition is_empty (s : string) : bool :=
  match s with
  | "" => true
  | _ => false
  end.

(** Keyword arguments of a [format] call. *)
Fixpoint kwarg (name : string) (kwargs : list (string * string)) : result string :=
  match kwargs with
  | [] => Raise KeyError
  | (k, v) :: rest => if String.eqb name k then Ret v else kwarg name rest
  end.

(** [str.format] with keyword arguments, which [PromptTemplate.format] runs
    on its template, for the replacement fields the program's templates use: a
    field is a name between braces, a doubled brace is a literal brace.
    The name is taken as it stands; attribute access, indexing, conversions
    and format specifications do not occur in the templates and are not
    modelled.  [field] is [Some name] while the scan is inside a replacement
    field. *)
Fixpoint format_from (kwargs : list (string * string)) (field : option string)
    (tpl : string) : result string :=
  match field, tpl with
  | None, "" => Ret ""
  | None, String c tpl' =>
      if Ascii.eqb c "{" then
        match tpl' with
        | String c' tpl'' =>
            if Ascii.eqb c' "{"
            then (r <- format_from kwargs None tpl'' ;; Ret (String c r))
            else format_from kwargs (Some "") tpl'
        | "" => Raise ValueError
        end
      else if Ascii.eqb c "}" then
        match tpl' with
        | String c' tpl'' =>
            if Ascii.eqb c' "}"
            then (r <- format_from kwargs None tpl'' ;; Ret (String c r))
            else Raise ValueError
        | "" => Raise ValueError
        end
      else (r <- format_from kwargs None tpl' ;; Ret (String c r))
  | Some name, "" => Raise ValueError
  | Some name, String c tpl' =>
      if Ascii.eqb c "}" then
        v <- kwarg name kwargs ;;
        r <- format_from kwargs None tpl' ;;
        Ret (v +:+ r)
      else format_from kwargs (Some (name +:+ String c "")) tpl'
  end.

Definition format (tpl : string) (kwargs : list (string * string)) : result string :=
  format_from kwargs None tpl.

End PyStr.

(** ** The value of [response.json()] *)

Module Json.

(** A parsed JSON document as Python holds it: [None], [bool], a number
    (kept as its literal, the program does no arithmetic), [str], [list]
    and [dict] with string keys. *)
Inductive json :=
| JNull
| JBool (b : bool)
| JNum (literal : string)
| JStr (s : string)
| JArr (items : list json)
| JObj (fields : gmap string json).

(** [v.get(key, dflt)]: only a [dict] has the method. *)
Definition get (v : json) (key : string) (dflt : json) : result json :=
  match v with
  | JObj fields => Ret (default dflt (fields !! key))
  | _ => Raise AttributeError
  end.

(** [v[0]]: the first element of a list, the first character of a string;
    a dict has no key [0] (its keys are strings), the other values are not
    subscriptable. *)
Definition item0 (v : json) : result json :=
  match v with
  | JArr (x :: _) => Ret x
  | JArr [] => Raise IndexError
  | JStr (String c _) => Ret (JStr (String c ""))
  | JStr "" => Raise IndexError
  | JObj _ => Raise KeyError
  | JNull | JBool _ | JNum _ => Raise TypeError
  end.

End Json.
Export Json.

(** ** The HTTP library *)

Module Http.

(** The [json=] body of the request. *)
Record payload := {
  model : string;
  messages : list (string * string);   (* role, content *)
  temperature : Q;
  max_tokens : Z;
  stream : bool
}.

(** What the program reads of a [requests.Response].  [body] is what
    [response.json()] returns, and [None] when it raises instead; it then
    raises [json_error]: [JSONDecodeError] for a text that is not JSON,
    [ValueError] or [RecursionError] for a document the decoder gives up
    on (an integer of too many digits, a nesting too deep). *)
Record response := {
  status_code : Z;
  reason : string;
  url : string;
  body : option json;
  json_error : exn
}.

(** The ways [requests.post] ends: it raises a [RequestException]
    (connection refused, time-out, name resolution, ...) whose text is
    [msg], it returns a response, or it raises an exception that is not a
    [RequestException] (a [UnicodeError] on the URL, an error of the
    library underneath that is not wrapped, ...). *)
Inductive post_result :=
| RequestException (msg : string)
| Responded (r : response)
| OtherException (ex : exn).

(** [response.raise_for_status()] of the requests library: an [HTTPError]
    (a [RequestException]) for a status from 400 to 599, nothing otherwise.
    The result is the text of the exception when one is raised. *)
Definition raise_for_status (r : response) : option string :=
  if ((400 <=? status_code r) && (status_code r <? 500))%Z then
    Some (pretty (status_code r) +:+ " Client Error: " +:+ reason r
          +:+ " for url: " +:+ url r)
  else if ((500 <=? status_code r) && (status_code r <? 600))%Z then
    Some (pretty (status_code r) +:+ " Server Error: " +:+ reason r
          +:+ " for url: " +:+ url r)
  else None.

(** [response.json()] *)
Definition json_of (r : response) : result json :=
  match body r with
  | Some v => Ret v
  | None => Raise (json_error r)
  end.

End Http.
Export Http.

(** ** The program *)

Module Bot.
Import PyStr.

(** The fields of the [CustomLLM] class. *)
Record CustomLLM := {
  api_url : string;
  model_name : string;
  llm_temperature : Q
}.

(** What [extract_text] of the PDF library does on a path: it returns the
    text or raises an exception whose text is [msg]. *)
Inductive extraction :=
| Extracted (text : string)
| ExtractionFails (msg : string).

(** Everything outside the source file: the file system, the PDF library,
    the server behind [requests.post] (asked with the number of earlier
    requests, the URL and the body) and Python's [str()] of a value that is
    not a string. *)
Record env := {
  path_exists : string -> bool;
  extract_text : string -> extraction;
  post : nat -> string -> payload -> post_result;
  str_of : json -> string
}.

(** What the program does to the outside, in order. *)
Inductive event :=
| Print (s : string)
| Input (prompt line : string)      (* [input(prompt)] returned [line] *)
| InputEOF (prompt : string)        (* [input(prompt)] met the end of input *)
| Post (url : string) (p : payload) (r : post_result).

(** A run: the events so far and how the function ended. *)
Definition run : Type := list event * result unit.

Definition after (evs : list event) (r : run) : run := ((evs ++ r.1)%list, r.2).
Infix ";>" := after (at level 60, right associativity).

(** [str(v)], as [print] and [str.format] apply it. *)
Definition py_str (e : env) (v : json) : string :=
  match v with
  | JStr s => s
  | _ => str_of e v
  end.

Definition system_message : string :=
  "You are a seasoned career advisor and resume expert.".

Definition no_valid_response : string := "No valid response.".

Definition request_body (self : CustomLLM) (prompt : string) : payload :=
  {| model := model_name self;
     messages := [("system", system_message); ("user", prompt)];
     temperature := llm_temperature self;
     max_tokens := 1000;
     stream := false |}.

(** The last two lines of [_call]: the chain of [get] and [[0]] over the
    decoded body. *)
Definition extract_content (r : response) : result json :=
  response_json <- json_of r ;;
  choices <- get response_json "choices" (JArr [JObj ∅]) ;;
  first <- item0 choices ;;
  message <- get first "message" (JObj ∅) ;;
  get message "content" (JStr no_valid_response).

(** The value [_call] computes from what [requests.post] did: the [except]
    clause turns a [RequestException] into a string, any other exception
    of [requests.post] leaves [_call]. *)
Definition call_result (outcome : post_result) : result json :=
  match outcome with
  | RequestException msg => Ret (JStr ("Network or request error: " +:+ msg))
  | Responded r =>
      match raise_for_status r with
      | Some msg => Ret (JStr ("Network or request error: " +:+ msg))
      | None => extract_content r
      end
  | OtherException ex => Raise ex
  end.

(** [CustomLLM._call], as the [n]-th request of the run ([__call__] only
    forwards to it). *)
Definition _call (e : env) (n : nat) (self : CustomLLM) (prompt : string)
  : event * result json :=
  let payload := request_body self prompt in
  let outcome := post e n (api_url self) payload in
  (Post (api_url self) payload outcome, call_result outcome).

Definition extract_text_from_pdf (e : env) (pdf_path : string) : extraction :=
  extract_text e pdf_path.

(** [preview] of [run_analysis] *)
Definition preview (resume_text : string) : string :=
  if (500 <? String.length resume_text)%nat
  then take 500 resume_text +:+ "..."
  else resume_text.

Definition resume_template : string :=
  "You are a seasoned career advisor and resume expert. Analyze the resume provided below and perform the following tasks:" +:+ nl +:+
  "1. Identify the candidate's key skills and competencies." +:+ nl +:+
  "2. Highlight the strengths and areas for improvement in the resume." +:+ nl +:+
  "3. Provide actionable suggestions for formatting, content, and clarity enhancements." +:+ nl +:+ nl +:+
  "Resume:" +:+ nl +:+ "{resume_text}" +:+ nl +:+ nl +:+
  "Please provide your analysis in a clear and concise manner.".

Definition followup_template : string :=
  "You are a seasoned career advisor and resume expert. The following is the previous analysis of a candidate's resume:" +:+ nl +:+
  "{analysis}" +:+ nl +:+ nl +:+
  "Now, the candidate has a follow-up question: {question}" +:+ nl +:+ nl +:+
  "Please provide detailed, actionable suggestions on how to improve the resume based on this question.".

(** [resume_prompt.format(resume_text=resume_text)] *)
Definition resume_prompt (resume_text : string) : result string :=
  format resume_template [("resume_text", resume_text)].

(** [followup_template.format(analysis=feedback, question=question)] *)
Definition followup_prompt (analysis question : string) : result string :=
  format followup_template [("analysis", analysis); ("question", question)].

Definition ask_followup : string :=
  nl +:+ "Would you like to ask a follow-up question regarding resume improvements? (yes/no): ".

Definition ask_question : string := "Enter your follow-up question: ".

(** The test of the loop: the stripped, lowered answer is [yes] or [y]. *)
Definition wants_followup (line : string) : bool :=
  mem (lower (strip line)) ["yes"; "y"].

(** The [while True] loop of [run_analysis].  [feedback] is the variable of
    that name, [n] the number of requests made before, [stdin] the lines
    that [input] will return. *)
Fixpoint followup_loop (e : env) (llm : CustomLLM) (feedback : json) (n : nat)
    (stdin : list string) : run :=
  match stdin with
  | [] => ([InputEOF ask_followup], Raise EOFError)
  | line :: stdin1 =>
      [Input ask_followup line] ;>
      if negb (wants_followup line) then ([], Ret tt)
      else
        match stdin1 with
        | [] => ([InputEOF ask_question], Raise EOFError)
        | qline :: stdin2 =>
            [Input ask_question qline] ;>
            let question := strip qline in
            if is_empty question then
              ([Print "No question entered. Exiting follow-up."], Ret tt)
            else
              match followup_prompt (py_str e feedback) question with
              | Raise ex => ([], Raise ex)
              | Ret formatted_followup =>
                  [Print (nl +:+ "Processing your follow-up question..." +:+ nl)] ;>
                  let (ev, r) := _call e n llm formatted_followup in
                  [ev] ;>
                  match r with
                  | Raise ex => ([], Raise ex)
                  | Ret followup_response =>
                      [Print ("Follow-Up Advice:" +:+ nl);
                       Print (py_str e followup_response)] ;>
                      followup_loop e llm feedback (S n) stdin2
                  end
              end
        end
  end.

Definition run_analysis (e : env) (api_url model_name pdf_path : string)
    (stdin : list string) : run :=
  if negb (path_exists e pdf_path) then
    ([Print ("File not found: " +:+ pdf_path)], Ret tt)
  else
    match extract_text_from_pdf e pdf_path with
    | ExtractionFails msg =>
        ([Print ("Error extracting text from PDF: " +:+ msg)], Ret tt)
    | Extracted resume_text =>
        if is_empty (strip resume_text) then
          ([Print "No text extracted from PDF."], Ret tt)
        else
          [Print (nl +:+ "Extracted Resume Text Preview:" +:+ nl);
           Print (preview resume_text)] ;>
          match resume_prompt resume_text with
          | Raise ex => ([], Raise ex)
          | Ret formatted_prompt =>
              let llm := {| api_url := api_url; model_name := model_name;
                            llm_temperature := Qmake 7 10 |} in
              [Print (nl +:+ "Analyzing resume with the language model..." +:+ nl)] ;>
              let (ev, r) := _call e 0 llm formatted_prompt in
              [ev] ;>
              match r with
              | Raise ex => ([], Raise ex)
              | Ret feedback =>
                  [Print ("Model Feedback:" +:+ nl); Print (py_str e feedback)] ;>
                  followup_loop e llm feedback 1 stdin
              end
          end
    end.

Definition API_URL : string := "http://localhost:1234/v1/chat/completions".
Definition MODEL_NAME : string := "mistral-nemo-instruct-2407".
Definition ask_path : string := "Enter the path to the resume PDF: ".

Definition main (e : env) (stdin : list string) : run :=
  match stdin with
  | [] => ([InputEOF ask_path], Raise EOFError)
  | line :: stdin1 =>
      let pdf_path := strip_quotes (strip line) in
      [Input ask_path line] ;> run_analysis e API_URL MODEL_NAME pdf_path stdin1
  end.

(** *** Reading a trace *)

(** The user prompt of a request body: the content of its [user] message. *)
Definition user_prompt (p : payload) : string :=
  match messages p with
  | [_; (_, content)] => content
  | _ => ""
  end.

(** The LlmClient calls of a trace: the prompt sent and what [_call]
    returned for it. *)
Fixpoint llm_calls (t : list event) : list (string * result json) :=
  match t with
  | [] => []
  | Post _ p outcome :: t' => (user_prompt p, call_result outcome) :: llm_calls t'
  | _ :: t' => llm_calls t'
  end.

(** The lines printed. *)
Fixpoint printed (t : list event) : list string :=
  match t with
  | [] => []
  | Print s :: t' => s :: printed t'
  | _ :: t' => printed t'
  end.

(** The session is at AwaitingFollowupChoice when it asks the yes/no
    question. *)
Definition asks_followup (ev : event) : bool :=
  match ev with
  | Input prompt _ | InputEOF prompt => String.eqb prompt ask_followup
  | _ => false
  end.

(** [s] occurs in [p] as it is. *)
Definition embeds (s p : string) : Prop :=
  exists before behind, p = before +:+ s +:+ behind.

End Bot.
Export Bot.

(** ** Concrete worlds used by the examples *)

Module Demo.

(** A 200 response whose body is
    [{"choices":[{"message":{"content": c}}]}]. *)
Definition ok (c : string) : post_result :=
  Responded {| status_code := 200; reason := "OK"; url := API_URL;
               json_error := JSONDecodeError;
               body := Some (JObj {[ "choices" :=
                 JArr [JObj {[ "message" := JObj {[ "content" := JStr c ]} ]}] ]}) |}.

(** A 200 response whose body is [{"choices":[]}]. *)
Definition empty_choices : post_result :=
  Responded {| status_code := 200; reason := "OK"; url := API_URL;
               json_error := JSONDecodeError;
               body := Some (JObj {[ "choices" := JArr [] ]}) |}.

(** A 300 response with a body that is not JSON. *)
Definition multiple_choices : post_result :=
  Responded {| status_code := 300; reason := "Multiple Choices"; url := API_URL;
               json_error := JSONDecodeError;
               body := None |}.

(** A file system with the one file [cv.pdf], whose text is [text], and a
    server that gives [answers n] to request [n]. *)
Definition world (text : string) (answers : nat -> post_result) : env :=
  {| path_exists := fun p => String.eqb p "cv.pdf";
     extract_text := fun _ => Extracted text;
     post := fun n _ _ => answers n;
     str_of := fun _ => "" |}.

(** The server answers ALPHA, then BRAVO, then CHARLIE. *)
Definition three_answers (n : nat) : post_result :=
  match n with
  | 0 => ok "ALPHA"
  | 1 => ok "BRAVO"
  | _ => ok "CHARLIE"
  end.

(** No server is listening. *)
Definition refused (n : nat) : post_result :=
  RequestException "connection refused".

Definition great (n : nat) : post_result := ok "Great resume!".

Definition llm : CustomLLM :=
  {| api_url := API_URL; model_name := MODEL_NAME; llm_temperature := Qmake 7 10 |}.

(** [n] times the character [c]. *)
Fixpoint replicate_char (n : nat) (c : ascii) : string :=
  match n with
  | 0 => ""
  | S n' => String c (replicate_char n' c)
  end.

Definition text500 : string := replicate_char 500 "x".
Definition text501 : string := replicate_char 501 "x".

End Demo.

(** ** The statements of the specification, as written and as the code has them *)

Module Claims.
Import PyStr.

(** The fixed text around the resume in the analysis prompt. *)
Definition resume_head : string :=
  "You are a seasoned career advisor and resume expert. Analyze the resume provided below and perform the following tasks:" +:+ nl +:+
  "1. Identify the candidate's key skills and competencies." +:+ nl +:+
  "2. Highlight the strengths and areas for improvement in the resume." +:+ nl +:+
  "3. Provide actionable suggestions for formatting, content, and clarity enhancements." +:+ nl +:+ nl +:+
  "Resume:" +:+ nl.

Definition resume_tail : string :=
  nl +:+ nl +:+ "Please provide your analysis in a clear and concise manner.".

(** The fixed text around the feedback and the question in the follow-up
    prompt. *)
Definition followup_head : string :=
  "You are a seasoned career advisor and resume expert. The following is the previous analysis of a candidate's resume:" +:+ nl.

Definition followup_mid : string :=
  nl +:+ nl +:+ "Now, the candidate has a follow-up question: ".

Definition followup_tail : string :=
  nl +:+ nl +:+
  "Please provide detailed, actionable suggestions on how to improve the resume based on this question.".

(** The spellings of yes and y in any letter case. *)
Definition yes_answers : list string :=
  ["yes"; "yeS"; "yEs"; "yES"; "Yes"; "YeS"; "YEs"; "YES"; "y"; "Y"].

(** A text made of whitespace only. *)
Fixpoint all_space (s : string) : bool :=
  match s with
  | "" => true
  | String c s' => isspace c && all_space s'
  end.

(** A call whose prompt is the follow-up template filled with [analysis]
    and with a question that was typed in. *)
Definition built_from (analysis : string) (stdin : list string)
    (c : string * result json) : Prop :=
  exists q,
    In q (map strip stdin) /\ q <> "" /\
    followup_prompt analysis q = Ret c.1 /\
    embeds analysis c.1.

(** The yes/no rule read on the line as it was typed. *)
Definition answer_rule (line : string) : Prop :=
  wants_followup line = true <-> In line yes_answers.

(** The stdin of the example sessions. *)
Definition two_questions : list string :=
  ["yes"; "How do I improve my summary?"; "yes"; "And my skills section?"; "no"].

Definition one_question : list string :=
  ["yes"; "How do I improve my summary?"; "no"].

(** Feedback chaining: each call after a call that returned [v] sends a
    prompt that embeds [v]. *)
Definition chained (e : env) (calls : list (string * result json)) : Prop :=
  forall k p v p' r',
    calls !! k = Some (p, Ret v) ->
    calls !! S k = Some (p', r') ->
    embeds (py_str e v) p'.

(** The preview rule with the cut at 500 characters included. *)
Definition preview_cut_at_500 (t : string) : Prop :=
  ((String.length t < 500)%nat -> preview t = t) /\
  ((500 <= String.length t)%nat -> preview t = take 500 t +:+ "...").

(** A request that did not come back with a usable response: the library
    raised, or the status is an error status. *)
Definition transport_failure (outcome : post_result) : Prop :=
  match outcome with
  | RequestException _ => True
  | Responded r => (400 <= status_code r < 600)%Z
  | OtherException _ => False
  end.

(** The same with every status outside 200-299 counted as a failure. *)
Definition non_2xx_failure (outcome : post_result) : Prop :=
  match outcome with
  | RequestException _ => True
  | Responded r => ~ (200 <= status_code r < 300)%Z
  | OtherException _ => False
  end.

(** [_call] hands back a string. *)
Definition returns_string (r : result json) : Prop :=
  exists s, r = Ret (JStr s).

End Claims.
Import PyStr Demo Claims.

(** ** Further notions about responses, traces and input lines *)

Module More.

(** The decoded bodies on which the chain of [get] and [[0]] of [_call]
    goes through: an object whose [choices], when present, is a list that
    starts with an object whose [message], when present, is an object. *)
Definition well_shaped (j : json) : bool :=
  match j with
  | JObj fields =>
      match fields !! "choices" with
      | None => true
      | Some (JArr (JObj first :: _)) =>
          match first !! "message" with
          | None | Some (JObj _) => true
          | Some _ => false
          end
      | Some _ => false
      end
  | _ => false
  end.


(** The client that [run_analysis] builds. *)
Definition client (api_url model_name : string) : CustomLLM :=
  {| api_url := api_url; model_name := model_name;
     llm_temperature := Qmake 7 10 |}.

Definition is_quote (c : ascii) : bool := Ascii.eqb c dquote.

(** Every character of [s] satisfies [p]. *)
Fixpoint all_chars (p : ascii -> bool) (s : string) : bool :=
  match s with
  | "" => true
  | String c s' => p c && all_chars p s'
  end.

(** The first character of [s], if any, does not satisfy [p]. *)
Definition starts_clean (p : ascii -> bool) (s : string) : bool :=
  match s with
  | "" => true
  | String c _ => negb (p c)
  end.

(** The last character of [s], if any, does not satisfy [p]. *)
Fixpoint ends_clean (p : ascii -> bool) (s : string) : bool :=
  match s with
  | "" => true
  | String c "" => negb (p c)
  | String _ s' => ends_clean p s'
  end.

(** A world whose PDF library fails on every file. *)
Definition broken_pdf : env :=
  {| path_exists := fun _ => true;
     extract_text := fun _ => ExtractionFails "No /Root object! - Is this really a PDF?";
     post := fun _ _ _ => ok "unused";
     str_of := fun _ => "" |}.

(** A 200 response whose body is
    [{"choices":[{"message":{"content": null}}]}]. *)
Definition null_content : post_result :=
  Responded {| status_code := 200; reason := "OK"; url := API_URL;
               json_error := JSONDecodeError;
               body := Some (JObj {[ "choices" :=
                 JArr [JObj {[ "message" := JObj {[ "content" := JNull ]} ]}] ]}) |}.

(** A 200 response whose body is [{"error":"model not loaded"}]. *)
Definition no_choices : post_result :=
  Responded {| status_code := 200; reason := "OK"; url := API_URL;
               json_error := JSONDecodeError;
               body := Some (JObj {[ "error" := JStr "model not loaded" ]}) |}.

(** The server answers the analysis and sends an empty list of choices to
    the first follow-up. *)
Definition fails_second (n : nat) : post_result :=
  match n with
  | 0 => ok "ALPHA"
  | _ => empty_choices
  end.

(** Every value a call returned is among the printed lines of [t]. *)
Definition all_results_printed (e : env) (t : list event) : Prop :=
  Forall (fun c => forall v, c.2 = Ret v -> In (py_str e v) (printed t))
         (llm_calls t).

(** The run ended with the exception [ex] right after a request whose
    response made [_call] raise it. *)
Definition ended_by_call (r : run) (ex : exn) : Prop :=
  r.2 = Raise ex /\
  exists t url body outcome,
    r.1 = (t ++ [Post url body outcome])%list /\
    call_result outcome = Raise ex.

(** A session in which the PDF library fails. *)
Definition broken_session : run :=
  run_analysis broken_pdf API_URL MODEL_NAME "cv.pdf" ["yes"].

End More.
Import More.

(** ** The shape of a session after the analysis *)

Module Rounds.

(** One completed follow-up round in a trace: the yes/no answer, the
    question, the request whose prompt is the follow-up template filled
    with [analysis] and the stripped question just read, and the print of
    what that request returned. *)
Definition is_round (e : env) (llm : CustomLLM) (analysis : string)
    (t : list event) : Prop :=
  exists line qline p n v,
    wants_followup line = true /\
    strip qline <> "" /\
    followup_prompt analysis (strip qline) = Ret p /\
    call_result (post e n (api_url llm) (request_body llm p)) = Ret v /\
    t = [Input ask_followup line; Input ask_question qline;
         Print (nl +:+ "Processing your follow-up question..." +:+ nl);
         Post (api_url llm) (request_body llm p)
              (post e n (api_url llm) (request_body llm p));
         Print ("Follow-Up Advice:" +:+ nl); Print (py_str e v)].

(** How the loop ends after its completed rounds.  It always asks the
    yes/no question first; then either it makes no request, or it makes one,
    built like those of the rounds, that makes [_call] raise. *)
Definition is_ending (e : env) (llm : CustomLLM) (analysis : string)
    (t : list event) : Prop :=
  (exists ev rest, t = ev :: rest /\ asks_followup ev = true) /\
  (llm_calls t = [] \/
   exists line qline p n ex,
     wants_followup line = true /\
     strip qline <> "" /\
     followup_prompt analysis (strip qline) = Ret p /\
     call_result (post e n (api_url llm) (request_body llm p)) = Raise ex /\
     t = [Input ask_followup line; Input ask_question qline;
          Print (nl +:+ "Processing your follow-up question..." +:+ nl);
          Post (api_url llm) (request_body llm p)
               (post e n (api_url llm) (request_body llm p))]).

(** A trace of the loop: completed rounds, all built from the same
    [analysis], then an ending. *)
Definition loop_shape (e : env) (llm : CustomLLM) (analysis : string)
    (t : list event) : Prop :=
  exists rounds ending,
    t = (List.concat rounds ++ ending)%list /\
    Forall (is_round e llm analysis) rounds /\
    is_ending e llm analysis ending.

(** The lines that [input] returned, in order. *)
Fixpoint inputs_read (t : list event) : list string :=
  match t with
  | [] => []
  | Input _ line :: t' => line :: inputs_read t'
  | _ :: t' => inputs_read t'
  end.

(** A session that got as far as the loop: the preview, the request with
    the analysis prompt [p0], the print of its result [v0], and then a
    trace of the loop in which every round is built from [v0]; the lines
    read by the loop are the first lines of [stdin], in order. *)
Definition session_shape (e : env) (api_url model_name text p0 : string)
    (v0 : json) (stdin : list string) (t : list event) : Prop :=
  exists loop_trace unread,
    t = ([Print (nl +:+ "Extracted Resume Text Preview:" +:+ nl);
          Print (preview text);
          Print (nl +:+ "Analyzing resume with the language model..." +:+ nl);
          Post api_url (request_body (client api_url model_name) p0)
               (post e 0 api_url (request_body (client api_url model_name) p0));
          Print ("Model Feedback:" +:+ nl);
          Print (py_str e v0)] ++ loop_trace)%list /\
    loop_shape e (client api_url model_name) (py_str e v0) loop_trace /\
    stdin = (inputs_read loop_trace ++ unread)%list.

(** Every request that returned a value is followed by a label, the print
    of that value, and the yes/no question. *)
Definition displayed_then_asks (e : env) (t : list event) : Prop :=
  forall t1 url b o t2 v,
    t = (t1 ++ Post url b o :: t2)%list ->
    call_result o = Ret v ->
    exists label ev t3,
      t2 = Print label :: Print (py_str e v) :: ev :: t3 /\
      asks_followup ev = true.

End Rounds.
Import Rounds.

(** * Properties *)

(** ** Strings *)

Example strip_ex : strip ("  Yes " +:+ nl) = "Yes".
Proof. reflexivity. Qed.

Example lower_ex : lower "YeS 1!" = "yes 1!".
Proof. reflexivity. Qed.

Example format_ex (t : string) :
  format "a{x}b{{c}}{y}" [("x", t); ("y", "Z")] = Ret ("a" +:+ t +:+ "b{c}Z").
Proof. reflexivity. Qed.

Example raise_for_status_404 :
  raise_for_status {| status_code := 404; reason := "Not Found";
                      url := "http://h/x"; body := None;
                      json_error := JSONDecodeError |}
  = Some "404 Client Error: Not Found for url: http://h/x".
Proof. reflexivity. Qed.

Lemma str_app_cons (c : ascii) (s t : string) :
  String c s +:+ t = String c (s +:+ t).
Proof. reflexivity. Qed.

Lemma str_app_nil_l (t : string) : "" +:+ t = t.
Proof. reflexivity. Qed.

Lemma str_app_nil_r (s : string) : s +:+ "" = s.
Proof.
  induction s as [|c s IH]; [reflexivity|].
  rewrite str_app_cons, IH. reflexivity.
Qed.

Lemma str_app_length (s t : string) :
  String.length (s +:+ t) = (String.length s + String.length t)%nat.
Proof.
  induction s as [|c s IH]; [reflexivity|].
  rewrite str_app_cons. simpl. rewrite IH. reflexivity.
Qed.

Lemma str_app_assoc (s t u : string) : (s +:+ t) +:+ u = s +:+ (t +:+ u).
Proof.
  induction s as [|c s IH]; [reflexivity|].
  rewrite !str_app_cons, IH. reflexivity.
Qed.

Lemma str_app_inv_tail (s1 s2 t : string) : s1 +:+ t = s2 +:+ t -> s1 = s2.
Proof.
  revert s2. induction s1 as [|c s1 IH]; intros [|d s2] H.
  - reflexivity.
  - apply (f_equal String.length) in H.
    rewrite str_app_cons, str_app_nil_l in H. simpl in H.
    rewrite str_app_length in H. lia.
  - apply (f_equal String.length) in H.
    rewrite str_app_cons, str_app_nil_l in H. simpl in H.
    rewrite str_app_length in H. lia.
  - rewrite !str_app_cons in H. injection H as -> H. f_equal. now apply IH.
Qed.

Lemma str_app_inv_head (s t1 t2 : string) : s +:+ t1 = s +:+ t2 -> t1 = t2.
Proof.
  induction s as [|c s IH]; intros H; [exact H|].
  rewrite !str_app_cons in H. injection H as H. auto.
Qed.

Lemma resume_prompt_eq (t : string) :
  resume_prompt t = Ret (resume_head +:+ t +:+ resume_tail).
Proof. reflexivity. Qed.

Lemma followup_prompt_eq (a q : string) :
  followup_prompt a q
  = Ret (followup_head +:+ a +:+ followup_mid +:+ q +:+ followup_tail).
Proof. reflexivity. Qed.

Lemma take_length (n : nat) (s : string) :
  (n <= String.length s)%nat -> String.length (take n s) = n.
Proof.
  revert s. induction n as [|n IH]; intros [|c s] H; simpl in *; try lia.
  rewrite IH; lia.
Qed.

Lemma take_split (n : nat) (s : string) :
  exists rest,
    s = take n s +:+ rest /\
    String.length rest = (String.length s - n)%nat.
Proof.
  revert s. induction n as [|n IH]; intros s.
  - exists s. split; [destruct s; reflexivity | simpl; lia].
  - destruct s as [|c s].
    + exists "". split; reflexivity.
    + destruct (IH s) as (rest & Hs & Hlen). exists rest. split.
      * simpl. rewrite str_app_cons. congruence.
      * simpl. exact Hlen.
Qed.

(** ** The preview *)

(** C4, as the code has it: a text of at most 500 characters is previewed
    as it is, without an ellipsis; a text of more than 500 characters is
    previewed as its first 500 characters followed by three dots, and
    something was cut off.  (A text of exactly 500 characters is on the
    first side.) *)
Theorem C4_preview (t : string) :
  ((String.length t <= 500)%nat -> preview t = t) /\
  ((500 < String.length t)%nat ->
     preview t = take 500 t +:+ "..." /\
     String.length (take 500 t) = 500%nat /\
     exists rest, rest <> "" /\ t = take 500 t +:+ rest).
Proof.
  unfold preview. split; intros H.
  - destruct (Nat.ltb_spec 500 (String.length t)); [lia | reflexivity].
  - destruct (Nat.ltb_spec 500 (String.length t)); [|lia].
    split; [reflexivity|]. split; [apply take_length; lia|].
    destruct (take_split 500 t) as (rest & Hs & Hlen).
    exists rest. split; [|exact Hs].
    intros ->. simpl in Hlen. lia.
Qed.

Lemma C4_preview_witness :
  preview "Jane Doe" = "Jane Doe" /\
  preview text501 = take 500 text501 +:+ "...".
Proof.
  split.
  - apply (proj1 (C4_preview "Jane Doe")). simpl. lia.
  - apply (proj2 (C4_preview text501)). vm_compute. lia.
Defined.

(** C4, as it is written, fails for a text of exactly 500 characters: the
    preview is the text itself, with no ellipsis. *)
Lemma C4_counterexample :
  String.length text500 = 500%nat /\
  preview text500 = text500 /\
  ~ preview_cut_at_500 text500.
Proof.
  split; [reflexivity|]. split; [reflexivity|].
  intros [_ H].
  assert (Hlen : (500 <= String.length text500)%nat) by (vm_compute; lia).
  apply H in Hlen. apply (f_equal String.length) in Hlen.
  vm_compute in Hlen. lia.
Qed.

(** ** The analysis prompt *)

(** C9: the analysis prompt is the resume text, unaltered, between a fixed
    head and a fixed tail, so two distinct resume texts give two distinct
    prompts that differ in the embedded text only. *)
Theorem C9_resume_prompt_injective (t1 t2 : string) :
  t1 <> t2 ->
  exists p1 p2,
    resume_prompt t1 = Ret p1 /\
    resume_prompt t2 = Ret p2 /\
    p1 = resume_head +:+ t1 +:+ resume_tail /\
    p2 = resume_head +:+ t2 +:+ resume_tail /\
    p1 <> p2.
Proof.
  intros Hne. eexists _, _.
  split; [apply resume_prompt_eq|]. split; [apply resume_prompt_eq|].
  split; [reflexivity|]. split; [reflexivity|].
  intros H. apply Hne.
  apply str_app_inv_head in H. now apply str_app_inv_tail in H.
Qed.

Lemma C9_resume_prompt_injective_witness :
  exists p1 p2,
    resume_prompt "Jane" = Ret p1 /\
    resume_prompt "John" = Ret p2 /\
    p1 = resume_head +:+ "Jane" +:+ resume_tail /\
    p2 = resume_head +:+ "John" +:+ resume_tail /\
    p1 <> p2.
Proof. apply (C9_resume_prompt_injective "Jane" "John"). discriminate. Defined.

(** ** Whitespace *)

Lemma lstrip_all_space (s : string) :
  all_space s = true -> lstrip_with isspace s = "".
Proof.
  induction s as [|c s IH]; simpl; [reflexivity|].
  intros [Hc Hs]%andb_prop. rewrite Hc. auto.
Qed.

Lemma rstrip_empty_all (p : ascii -> bool) (s : string) :
  rstrip_with p s = "" ->
  match s with "" => True | String c _ => p c = true end.
Proof.
  destruct s as [|c s]; simpl; [trivial|].
  destruct (rstrip_with p s); [|discriminate].
  destruct (p c); [trivial | discriminate].
Qed.

Lemma lstrip_head (p : ascii -> bool) (s : string) :
  match lstrip_with p s with "" => True | String c _ => p c = false end.
Proof.
  induction s as [|c s IH]; simpl; [trivial|].
  destruct (p c) eqn:Hc; [exact IH | exact Hc].
Qed.

Lemma lstrip_empty_all_space (s : string) :
  lstrip_with isspace s = "" -> all_space s = true.
Proof.
  induction s as [|c s IH]; simpl; [reflexivity|].
  destruct (isspace c); [auto | discriminate].
Qed.

(** A text strips to the empty string exactly when it is made of
    whitespace only. *)
Lemma strip_empty_iff (s : string) : strip s = "" <-> all_space s = true.
Proof.
  unfold strip, strip_with. split.
  - intros H. apply lstrip_empty_all_space.
    pose proof (rstrip_empty_all _ _ H) as Hr.
    pose proof (lstrip_head isspace s) as Hl.
    destruct (lstrip_with isspace s); [reflexivity | congruence].
  - intros H. rewrite (lstrip_all_space _ H). reflexivity.
Qed.

(** ** The LLM client *)

Lemma raise_for_status_ok (r : response) :
  ~ (400 <= status_code r < 600)%Z -> raise_for_status r = None.
Proof.
  intros H. unfold raise_for_status.
  destruct (Z.leb_spec 400 (status_code r)),
           (Z.ltb_spec (status_code r) 500),
           (Z.leb_spec 500 (status_code r)),
           (Z.ltb_spec (status_code r) 600); simpl; try reflexivity; lia.
Qed.

Lemma raise_for_status_error (r : response) :
  (400 <= status_code r < 600)%Z -> exists msg, raise_for_status r = Some msg.
Proof.
  intros H. unfold raise_for_status.
  destruct (Z.leb_spec 400 (status_code r)); [|lia].
  destruct (Z.ltb_spec (status_code r) 500); simpl; [eauto|].
  destruct (Z.leb_spec 500 (status_code r)); [|lia].
  destruct (Z.ltb_spec (status_code r) 600); simpl; [eauto | lia].
Qed.

(** Where the code does fall back on the sentinel: a body that is an object
    without [choices], a first choice without [message], or a message
    without [content]. *)
Lemma sentinel_when_key_missing (r : response) (fields : gmap string json) :
  ~ (400 <= status_code r < 600)%Z ->
  body r = Some (JObj fields) ->
  fields !! "choices" = None \/
  (exists first more,
      fields !! "choices" = Some (JArr (JObj first :: more)) /\
      (first !! "message" = None \/
       exists message,
         first !! "message" = Some (JObj message) /\
         message !! "content" = None)) ->
  call_result (Responded r) = Ret (JStr "No valid response.").
Proof.
  intros Hst Hbody Hshape. unfold call_result.
  rewrite (raise_for_status_ok _ Hst).
  unfold extract_content, json_of. rewrite Hbody. simpl.
  destruct Hshape as [Hc | (first & more & Hc & Hmsg)]; rewrite Hc; simpl.
  - rewrite lookup_empty. simpl. rewrite lookup_empty. reflexivity.
  - destruct Hmsg as [Hm | (message & Hm & Hcontent)]; rewrite Hm; simpl.
    + rewrite lookup_empty. reflexivity.
    + rewrite Hcontent. reflexivity.
Qed.

(** C5: for a response that is not an error response (its status is
    outside 400-599, as every 2xx status is) and whose body has the shape
    [{choices: [{message: {content: c}}, ...], ...}], [_call] returns
    exactly [c], the content of the first choice's message. *)
Theorem C5_first_choice_content (e : env) (n : nat) (self : CustomLLM)
    (prompt : string) (r : response) (fields first message : gmap string json)
    (more : list json) (c : string) :
  post e n (api_url self) (request_body self prompt) = Responded r ->
  ~ (400 <= status_code r < 600)%Z ->
  body r = Some (JObj fields) ->
  fields !! "choices" = Some (JArr (JObj first :: more)) ->
  first !! "message" = Some (JObj message) ->
  message !! "content" = Some (JStr c) ->
  (_call e n self prompt).2 = Ret (JStr c).
Proof.
  intros Hpost Hst Hbody Hchoices Hmessage Hcontent.
  unfold _call. simpl. rewrite Hpost. unfold call_result.
  rewrite (raise_for_status_ok _ Hst).
  unfold extract_content, json_of. rewrite Hbody. simpl.
  rewrite Hchoices. simpl. rewrite Hmessage. simpl. rewrite Hcontent.
  reflexivity.
Qed.

Lemma C5_first_choice_content_witness :
  (_call (world "Jane Doe" great) 0 llm "hello").2 = Ret (JStr "Great resume!").
Proof.
  apply (C5_first_choice_content (world "Jane Doe" great) 0 llm "hello"
           {| status_code := 200; reason := "OK"; url := API_URL;
               json_error := JSONDecodeError;
              body := Some (JObj {[ "choices" :=
                JArr [JObj {[ "message" :=
                  JObj {[ "content" := JStr "Great resume!" ]} ]}] ]}) |}
           {[ "choices" :=
                JArr [JObj {[ "message" :=
                  JObj {[ "content" := JStr "Great resume!" ]} ]}] ]}
           {[ "message" := JObj {[ "content" := JStr "Great resume!" ]} ]}
           {[ "content" := JStr "Great resume!" ]}
           [] "Great resume!").
  - reflexivity.
  - simpl. lia.
  - reflexivity.
  - reflexivity.
  - reflexivity.
  - reflexivity.
Defined.

(** C3, at the body [{"choices":[]}]: the sentence asks for the sentinel,
    the code takes element 0 of the empty list, which raises [IndexError];
    nothing catches it, so [_call] and with it the whole session end with
    that exception. *)
Theorem C3_empty_choices_raises :
  (_call (world "Jane Doe" (fun _ => empty_choices)) 0 llm "hello").2
    = Raise IndexError /\
  (run_analysis (world "Jane Doe" (fun _ => empty_choices))
     API_URL MODEL_NAME "cv.pdf" ["no"]).2 = Raise IndexError.
Proof. split; reflexivity. Qed.

(** C6, as the code has it: when [requests.post] raises a request
    exception (connection refused, time-out, name resolution) or the
    response has a status from 400 to 599, [_call] returns the string
    [Network or request error: ] followed by the text of the exception,
    and raises nothing. *)
Theorem C6_transport_failure_returns_string (e : env) (n : nat)
    (self : CustomLLM) (prompt : string) :
  transport_failure (post e n (api_url self) (request_body self prompt)) ->
  exists msg,
    (_call e n self prompt).2 = Ret (JStr ("Network or request error: " +:+ msg)) /\
    forall m, post e n (api_url self) (request_body self prompt) = RequestException m ->
              msg = m.
Proof.
  unfold _call. simpl.
  destruct (post e n (api_url self) (request_body self prompt)) as [m|r|ex]; simpl.
  - intros _. exists m. split; [reflexivity|]. intros m' [= ->]. reflexivity.
  - intros H. destruct (raise_for_status_error _ H) as [msg Hmsg].
    exists msg. rewrite Hmsg. split; [reflexivity | discriminate].
  - intros [].
Qed.

Lemma C6_transport_failure_returns_string_witness :
  exists msg,
    (_call (world "Jane Doe" refused) 0 llm "hello").2
      = Ret (JStr ("Network or request error: " +:+ msg)) /\
    forall m, post (world "Jane Doe" refused) 0 (api_url llm)
                (request_body llm "hello") = RequestException m ->
              msg = m.
Proof.
  apply (C6_transport_failure_returns_string (world "Jane Doe" refused) 0 llm "hello").
  exact I.
Defined.

(** C6, as it is written, fails for a status outside 200-299 that is not an
    error status: a 300 response is not turned into an error string, the
    code goes on to decode its body and the exception of the decoder
    leaves [_call]. *)
Lemma C6_counterexample :
  non_2xx_failure multiple_choices /\
  (_call (world "Jane Doe" (fun _ => multiple_choices)) 0 llm "hello").2
    = Raise JSONDecodeError /\
  ~ returns_string
      (_call (world "Jane Doe" (fun _ => multiple_choices)) 0 llm "hello").2.
Proof.
  split; [simpl; lia|]. split; [reflexivity|].
  intros [s Hs]. discriminate Hs.
Qed.

(** ** The session, before the first request *)

(** C7: for a path that does not exist the session prints the
    file-not-found message and ends; no request is made. *)
Theorem C7_missing_file (e : env) (api_url model_name pdf_path : string)
    (stdin : list string) :
  path_exists e pdf_path = false ->
  run_analysis e api_url model_name pdf_path stdin
    = ([Print ("File not found: " +:+ pdf_path)], Ret tt) /\
  llm_calls (run_analysis e api_url model_name pdf_path stdin).1 = [].
Proof.
  intros H. unfold run_analysis. rewrite H. simpl. split; reflexivity.
Qed.

Lemma C7_missing_file_witness :
  run_analysis (world "Jane Doe" great) API_URL MODEL_NAME "/no/such/file.pdf" ["yes"]
    = ([Print "File not found: /no/such/file.pdf"], Ret tt) /\
  llm_calls (run_analysis (world "Jane Doe" great) API_URL MODEL_NAME
               "/no/such/file.pdf" ["yes"]).1 = [].
Proof.
  apply (C7_missing_file (world "Jane Doe" great) API_URL MODEL_NAME
           "/no/such/file.pdf" ["yes"]).
  reflexivity.
Defined.

(** C10: when the extracted text is made of whitespace only (so it strips
    to the empty string, although it need not be empty), the session prints
    that no text was extracted and ends; no prompt is built and no request
    is made. *)
Theorem C10_blank_text (e : env) (api_url model_name pdf_path text : string)
    (stdin : list string) :
  path_exists e pdf_path = true ->
  extract_text e pdf_path = Extracted text ->
  all_space text = true ->
  strip text = "" /\
  run_analysis e api_url model_name pdf_path stdin
    = ([Print "No text extracted from PDF."], Ret tt) /\
  llm_calls (run_analysis e api_url model_name pdf_path stdin).1 = [].
Proof.
  intros Hex Htext Hblank.
  apply strip_empty_iff in Hblank. split; [exact Hblank|].
  unfold run_analysis, extract_text_from_pdf.
  rewrite Hex, Htext, Hblank. simpl. split; reflexivity.
Qed.

Lemma C10_blank_text_witness :
  strip ("  " +:+ nl +:+ " ") = "" /\
  run_analysis (world ("  " +:+ nl +:+ " ") great) API_URL MODEL_NAME "cv.pdf" ["yes"]
    = ([Print "No text extracted from PDF."], Ret tt) /\
  llm_calls (run_analysis (world ("  " +:+ nl +:+ " ") great) API_URL MODEL_NAME
               "cv.pdf" ["yes"]).1 = [].
Proof.
  apply (C10_blank_text (world ("  " +:+ nl +:+ " ") great) API_URL MODEL_NAME
           "cv.pdf" ("  " +:+ nl +:+ " ") ["yes"]); reflexivity.
Defined.

(** ** The follow-up loop *)

Lemma lower_char_y (c : ascii) :
  lower_char c = "y"%char -> c = "y"%char \/ c = "Y"%char.
Proof.
  destruct c as [[] [] [] [] [] [] [] []]; vm_compute; intros H;
    try discriminate H; auto.
Qed.

Lemma lower_char_e (c : ascii) :
  lower_char c = "e"%char -> c = "e"%char \/ c = "E"%char.
Proof.
  destruct c as [[] [] [] [] [] [] [] []]; vm_compute; intros H;
    try discriminate H; auto.
Qed.

Lemma lower_char_s (c : ascii) :
  lower_char c = "s"%char -> c = "s"%char \/ c = "S"%char.
Proof.
  destruct c as [[] [] [] [] [] [] [] []]; vm_compute; intros H;
    try discriminate H; auto.
Qed.

(** The lowered answer is [yes] or [y] exactly for the spellings of those
    two words in any letter case. *)
Lemma lower_yes_iff (s : string) :
  mem (lower s) ["yes"; "y"] = true <-> In s yes_answers.
Proof.
  split.
  - unfold mem. rewrite !orb_true_iff, !String.eqb_eq.
    intros [H | [H | H]]; [| |discriminate H].
    + destruct s as [|c1 [|c2 [|c3 [|c4 s]]]]; try discriminate H.
      simpl in H. injection H as H1 H2 H3.
      apply lower_char_y in H1. apply lower_char_e in H2.
      apply lower_char_s in H3.
      destruct H1 as [-> | ->], H2 as [-> | ->], H3 as [-> | ->];
        simpl; tauto.
    + destruct s as [|c1 [|c2 s]]; try discriminate H.
      simpl in H. injection H as H1. apply lower_char_y in H1.
      destruct H1 as [-> | ->]; simpl; tauto.
  - intros H. simpl in H.
    repeat (destruct H as [<- | H]; [reflexivity|]). destruct H.
Qed.

Lemma is_empty_true (s : string) : is_empty s = true <-> s = "".
Proof. destruct s; simpl; split; congruence. Qed.

Lemma llm_calls_app (a b : list event) :
  llm_calls (a ++ b) = (llm_calls a ++ llm_calls b)%list.
Proof.
  induction a as [|ev a IH]; [reflexivity|].
  destruct ev; simpl; rewrite IH; reflexivity.
Qed.

Lemma printed_app (a b : list event) :
  printed (a ++ b) = (printed a ++ printed b)%list.
Proof.
  induction a as [|ev a IH]; [reflexivity|].
  destruct ev; simpl; rewrite IH; reflexivity.
Qed.

Lemma list_ind2 {A : Type} (P : list A -> Prop) :
  P [] ->
  (forall x, P [x]) ->
  (forall x y l, P l -> P (x :: y :: l)) ->
  forall l, P l.
Proof.
  intros H0 H1 H2 l.
  enough (H : P l /\ forall x, P (x :: l)) by apply H.
  induction l as [|y l [IHl IHc]]; split; auto.
Qed.

Section FollowupLoop.

Variable e : env.
Variable llm : CustomLLM.
Variable feedback : json.

(** One round of the loop when the answer is yes and a question is given:
    the prompt is posted, and the loop goes on with the same [feedback]
    unless [_call] raised. *)
Lemma followup_loop_round (n : nat) (line qline : string) (stdin2 : list string) :
  wants_followup line = true ->
  strip qline <> "" ->
  let p := followup_head +:+ py_str e feedback +:+ followup_mid
             +:+ strip qline +:+ followup_tail in
  let outcome := post e n (api_url llm) (request_body llm p) in
  followup_loop e llm feedback n (line :: qline :: stdin2)
  = [Input ask_followup line; Input ask_question qline;
     Print (nl +:+ "Processing your follow-up question..." +:+ nl);
     Post (api_url llm) (request_body llm p) outcome] ;>
    match call_result outcome with
    | Raise ex => ([], Raise ex)
    | Ret followup_response =>
        [Print ("Follow-Up Advice:" +:+ nl); Print (py_str e followup_response)] ;>
        followup_loop e llm feedback (S n) stdin2
    end.
Proof.
  intros Hyes Hq p outcome.
  cbn [followup_loop]. rewrite Hyes. cbn [negb].
  destruct (is_empty (strip qline)) eqn:Hempty.
  { apply is_empty_true in Hempty. contradiction. }
  rewrite followup_prompt_eq. fold p. unfold _call. fold outcome.
  unfold after. cbn [fst snd].
  destruct (call_result outcome); reflexivity.
Qed.

Lemma followup_loop_stop (n : nat) (line : string) (stdin1 : list string) :
  wants_followup line = false ->
  followup_loop e llm feedback n (line :: stdin1)
  = ([Input ask_followup line], Ret tt).
Proof. intros H. cbn [followup_loop]. rewrite H. reflexivity. Qed.

Lemma followup_loop_no_question (n : nat) (line qline : string) (stdin2 : list string) :
  wants_followup line = true ->
  strip qline = "" ->
  followup_loop e llm feedback n (line :: qline :: stdin2)
  = ([Input ask_followup line; Input ask_question qline;
      Print "No question entered. Exiting follow-up."], Ret tt).
Proof.
  intros H Hq. cbn [followup_loop]. rewrite H, Hq. reflexivity.
Qed.

Lemma built_from_more (analysis : string) (x y : string) (stdin : list string)
    (c : string * result json) :
  built_from analysis stdin c -> built_from analysis (x :: y :: stdin) c.
Proof.
  intros (q & Hin & H). exists q. split; [simpl; auto | exact H].
Qed.

(** Every request of the loop carries the follow-up template filled with
    the feedback the loop was entered with. *)
Lemma followup_loop_calls (stdin : list string) :
  forall n,
    Forall (built_from (py_str e feedback) stdin)
           (llm_calls (followup_loop e llm feedback n stdin).1).
Proof.
  induction stdin as [|line|line qline stdin2 IH] using list_ind2; intros n.
  - constructor.
  - cbn [followup_loop]. destruct (wants_followup line); constructor.
  - destruct (wants_followup line) eqn:Hyes.
    2:{ rewrite followup_loop_stop by exact Hyes. constructor. }
    destruct (string_dec (strip qline) "") as [Hq | Hq].
    { rewrite followup_loop_no_question by assumption. constructor. }
    rewrite followup_loop_round by assumption.
    unfold after at 1. cbn [fst]. rewrite llm_calls_app.
    cbn [llm_calls app user_prompt request_body messages].
    constructor.
    + exists (strip qline). cbn [fst]. split; [simpl; auto|].
      split; [exact Hq|]. split; [apply followup_prompt_eq|].
      exists followup_head, (followup_mid +:+ strip qline +:+ followup_tail).
      reflexivity.
    + destruct (call_result _); [|constructor].
      unfold after. cbn [fst]. rewrite llm_calls_app. cbn [llm_calls app].
      eapply Forall_impl; [apply IH|]. intros c. apply built_from_more.
Qed.

(** The loop always begins by asking the yes/no question. *)
Lemma followup_loop_asks (n : nat) (stdin : list string) :
  existsb asks_followup (followup_loop e llm feedback n stdin).1 = true.
Proof.
  destruct stdin as [|line stdin1]; [reflexivity|].
  cbn [followup_loop]. unfold after at 1. cbn [fst app existsb asks_followup].
  rewrite String.eqb_refl. reflexivity.
Qed.

End FollowupLoop.

(** The session up to the loop, when the text is there and the first
    request did not raise. *)
Lemma run_analysis_to_loop (e : env) (api_url model_name pdf_path text : string)
    (stdin : list string) (v0 : json) :
  path_exists e pdf_path = true ->
  extract_text e pdf_path = Extracted text ->
  strip text <> "" ->
  let llm0 := {| api_url := api_url; model_name := model_name;
                 llm_temperature := Qmake 7 10 |} in
  let p0 := resume_head +:+ text +:+ resume_tail in
  let outcome := post e 0 api_url (request_body llm0 p0) in
  call_result outcome = Ret v0 ->
  run_analysis e api_url model_name pdf_path stdin
  = [Print (nl +:+ "Extracted Resume Text Preview:" +:+ nl);
     Print (preview text);
     Print (nl +:+ "Analyzing resume with the language model..." +:+ nl);
     Post api_url (request_body llm0 p0) outcome;
     Print ("Model Feedback:" +:+ nl);
     Print (py_str e v0)] ;>
    followup_loop e llm0 v0 1 stdin.
Proof.
  intros Hex Htext Hne llm0 p0 outcome Hv0.
  unfold run_analysis, extract_text_from_pdf. rewrite Hex, Htext. cbn [negb].
  destruct (is_empty (strip text)) eqn:Hempty.
  { apply is_empty_true in Hempty. contradiction. }
  rewrite resume_prompt_eq. fold p0. unfold _call. cbn [Bot.api_url].
  fold llm0. fold outcome. rewrite Hv0. reflexivity.
Qed.

(** C8, as the code has it: the answer is read with leading and trailing
    whitespace removed; it continues to a follow-up round exactly when what
    remains is yes or y in any letter case, and any other answer ends the
    session.  After such an answer, a question that is empty once stripped
    ends the loop with no further request; any other question is sent in a
    follow-up prompt. *)
Theorem C8_followup_choice (e : env) (llm : CustomLLM) (feedback : json)
    (n : nat) (line : string) (stdin1 : list string) :
  (wants_followup line = true <-> In (strip line) yes_answers) /\
  (wants_followup line = false ->
     followup_loop e llm feedback n (line :: stdin1)
     = ([Input ask_followup line], Ret tt)) /\
  (wants_followup line = true ->
     forall qline stdin2, stdin1 = qline :: stdin2 ->
       (strip qline = "" ->
          followup_loop e llm feedback n (line :: stdin1)
          = ([Input ask_followup line; Input ask_question qline;
              Print "No question entered. Exiting follow-up."], Ret tt) /\
          llm_calls (followup_loop e llm feedback n (line :: stdin1)).1 = []) /\
       (strip qline <> "" ->
          exists p r rest,
            followup_prompt (py_str e feedback) (strip qline) = Ret p /\
            llm_calls (followup_loop e llm feedback n (line :: stdin1)).1
            = (p, r) :: rest)).
Proof.
  split; [apply lower_yes_iff|]. split; [apply followup_loop_stop|].
  intros Hyes qline stdin2 ->. split; intros Hq.
  - rewrite followup_loop_no_question by assumption. split; reflexivity.
  - rewrite followup_loop_round by assumption.
    unfold after at 1. cbn [fst]. rewrite llm_calls_app.
    cbn [llm_calls app user_prompt request_body messages].
    eexists _, _, _. split; [apply followup_prompt_eq | reflexivity].
Qed.

Lemma C8_followup_choice_witness :
  followup_loop (world "Jane Doe" three_answers) llm (JStr "ALPHA") 1 ["maybe"; "yes"]
    = ([Input ask_followup "maybe"], Ret tt) /\
  llm_calls (followup_loop (world "Jane Doe" three_answers) llm (JStr "ALPHA") 1
               [" YeS "; "  "; "yes"]).1 = [].
Proof.
  split.
  - apply (C8_followup_choice (world "Jane Doe" three_answers) llm
             (JStr "ALPHA") 1 "maybe" ["yes"]).
    reflexivity.
  - apply (proj2 (proj2 (C8_followup_choice (world "Jane Doe" three_answers) llm
             (JStr "ALPHA") 1 " YeS " ["  "; "yes"])) eq_refl "  " ["yes"] eq_refl).
    reflexivity.
Defined.

(** C8, as it is written, fails for an answer with whitespace around it:
    the line of a space, yes and a space is none of the spellings of yes or
    y, and the session continues with a follow-up round all the same. *)
Lemma C8_counterexample :
  ~ answer_rule " yes " /\
  wants_followup " yes " = true /\
  List.length (llm_calls (followup_loop (world "Jane Doe" three_answers) llm
                            (JStr "ALPHA") 1
                            [" yes "; "How do I improve my summary?"; "no"]).1)
  = 1%nat.
Proof.
  split; [|split; reflexivity].
  intros [H _]. specialize (H eq_refl). simpl in H.
  repeat (destruct H as [H | H]; [discriminate H|]). exact H.
Qed.

Section LoopCases.

Variable e : env.
Variable llm : CustomLLM.
Variable feedback : json.

(** The loop, case by case: the input ends, the answer is not yes, the
    question is empty, the request raises, or a round is completed and the
    loop starts again on the rest of the input. *)
Lemma followup_loop_cases (P : nat -> list string -> run -> Prop) :
  (forall n, P n [] ([InputEOF ask_followup], Raise EOFError)) ->
  (forall n line rest,
      wants_followup line = false ->
      P n (line :: rest) ([Input ask_followup line], Ret tt)) ->
  (forall n line,
      wants_followup line = true ->
      P n [line] ([Input ask_followup line; InputEOF ask_question], Raise EOFError)) ->
  (forall n line qline rest,
      wants_followup line = true ->
      strip qline = "" ->
      P n (line :: qline :: rest)
        ([Input ask_followup line; Input ask_question qline;
          Print "No question entered. Exiting follow-up."], Ret tt)) ->
  (forall n line qline rest p ex,
      wants_followup line = true ->
      strip qline <> "" ->
      followup_prompt (py_str e feedback) (strip qline) = Ret p ->
      call_result (post e n (api_url llm) (request_body llm p)) = Raise ex ->
      P n (line :: qline :: rest)
        ([Input ask_followup line; Input ask_question qline;
          Print (nl +:+ "Processing your follow-up question..." +:+ nl);
          Post (api_url llm) (request_body llm p)
               (post e n (api_url llm) (request_body llm p))], Raise ex)) ->
  (forall n line qline rest p v,
      wants_followup line = true ->
      strip qline <> "" ->
      followup_prompt (py_str e feedback) (strip qline) = Ret p ->
      call_result (post e n (api_url llm) (request_body llm p)) = Ret v ->
      P (S n) rest (followup_loop e llm feedback (S n) rest) ->
      P n (line :: qline :: rest)
        ([Input ask_followup line; Input ask_question qline;
          Print (nl +:+ "Processing your follow-up question..." +:+ nl);
          Post (api_url llm) (request_body llm p)
               (post e n (api_url llm) (request_body llm p));
          Print ("Follow-Up Advice:" +:+ nl); Print (py_str e v)] ;>
         followup_loop e llm feedback (S n) rest)) ->
  forall stdin n, P n stdin (followup_loop e llm feedback n stdin).
Proof.
  intros Heof Hno Heofq Hempty Hraise Hround stdin.
  induction stdin as [|line|line qline rest IH] using list_ind2; intros n.
  - apply Heof.
  - destruct (wants_followup line) eqn:Hyes.
    + cbn [followup_loop]. rewrite Hyes. apply Heofq, Hyes.
    + rewrite followup_loop_stop by exact Hyes. apply Hno, Hyes.
  - destruct (wants_followup line) eqn:Hyes.
    2:{ rewrite followup_loop_stop by exact Hyes. apply Hno, Hyes. }
    destruct (string_dec (strip qline) "") as [Hq | Hq].
    { rewrite followup_loop_no_question by assumption. now apply Hempty. }
    rewrite followup_loop_round by assumption.
    destruct (call_result _) as [v|ex] eqn:Hcall.
    + unfold after at 1. cbn [fst snd app].
      apply (Hround n line qline rest _ v Hyes Hq (followup_prompt_eq _ _) Hcall).
      apply IH.
    + apply (Hraise n line qline rest _ ex Hyes Hq (followup_prompt_eq _ _) Hcall).
Qed.

End LoopCases.

(** The loop begins by asking the yes/no question. *)
Lemma followup_loop_first (e : env) (llm : CustomLLM) (feedback : json)
    (n : nat) (stdin : list string) :
  exists ev rest,
    (followup_loop e llm feedback n stdin).1 = ev :: rest /\
    asks_followup ev = true.
Proof.
  destruct stdin as [|line stdin1].
  - eexists _, _. split; reflexivity.
  - cbn [followup_loop]. unfold after at 1. cbn [fst app].
    eexists _, _. split; [reflexivity|]. reflexivity.
Qed.

(** The trace of the loop is a sequence of completed rounds, each built
    from the feedback the loop was entered with, and an ending. *)
Lemma followup_loop_shape (e : env) (llm : CustomLLM) (feedback : json)
    (stdin : list string) (n : nat) :
  loop_shape e llm (py_str e feedback) (followup_loop e llm feedback n stdin).1.
Proof.
  revert stdin n.
  apply (followup_loop_cases e llm feedback
           (fun _ _ r => loop_shape e llm (py_str e feedback) r.1)).
  - intros n. exists [], [InputEOF ask_followup].
    split; [reflexivity|]. split; [constructor|].
    split; [eexists _, _; split; reflexivity | left; reflexivity].
  - intros n line rest _. exists [], [Input ask_followup line].
    split; [reflexivity|]. split; [constructor|].
    split; [eexists _, _; split; reflexivity | left; reflexivity].
  - intros n line _.
    exists [], [Input ask_followup line; InputEOF ask_question].
    split; [reflexivity|]. split; [constructor|].
    split; [eexists _, _; split; reflexivity | left; reflexivity].
  - intros n line qline rest _ _.
    exists [], [Input ask_followup line; Input ask_question qline;
                Print "No question entered. Exiting follow-up."].
    split; [reflexivity|]. split; [constructor|].
    split; [eexists _, _; split; reflexivity | left; reflexivity].
  - intros n line qline rest p ex Hyes Hq Hp Hcall.
    eexists [], _. split; [reflexivity|]. split; [constructor|].
    split; [eexists _, _; split; reflexivity|].
    right. exists line, qline, p, n, ex. auto.
  - intros n line qline rest p v Hyes Hq Hp Hcall (rounds & ending & Ht & Hr & He).
    eexists (_ :: rounds), ending. split; [|split; [|exact He]].
    + unfold after. cbn [fst]. rewrite Ht. cbn [List.concat].
      rewrite <- List.app_assoc. reflexivity.
    + constructor; [|exact Hr]. exists line, qline, p, n, v. auto.
Qed.

(** The loop reads the lines of the input in order, from the first. *)
Lemma followup_loop_reads (e : env) (llm : CustomLLM) (feedback : json)
    (stdin : list string) (n : nat) :
  exists unread,
    stdin = (inputs_read (followup_loop e llm feedback n stdin).1 ++ unread)%list.
Proof.
  revert stdin n.
  apply (followup_loop_cases e llm feedback
           (fun _ stdin r => exists unread, stdin = (inputs_read r.1 ++ unread)%list)).
  - intros. exists []. reflexivity.
  - intros n line rest _. exists rest. reflexivity.
  - intros. exists []. reflexivity.
  - intros n line qline rest _ _. exists rest. reflexivity.
  - intros n line qline rest p ex _ _ _ _. exists rest. reflexivity.
  - intros n line qline rest p v _ _ _ _ [unread Hu]. exists unread.
    unfold after. cbn [fst app inputs_read]. congruence.
Qed.

(** A block of three events that are no requests, a request that returned
    [v], a label and the print of [v], before a trace that begins with the
    yes/no question and keeps [displayed_then_asks]. *)
Lemma displayed_then_asks_block (e : env) (a b c : event) (url : string)
    (body : payload) (o : post_result) (label : string) (v : json)
    (rest : list event) :
  llm_calls [a; b; c] = [] ->
  call_result o = Ret v ->
  (exists ev t3, rest = ev :: t3 /\ asks_followup ev = true) ->
  displayed_then_asks e rest ->
  displayed_then_asks e
    ([a; b; c; Post url body o; Print label; Print (py_str e v)] ++ rest).
Proof.
  intros Habc Ho (ev & t3 & -> & Hev) IH t1 url' b' o' t2 v' Ht Hv'.
  destruct t1 as [|x1 t1]; cbn [app] in Ht.
  { injection Ht as -> _. discriminate Habc. }
  injection Ht as _ Ht. destruct t1 as [|x2 t1]; cbn [app] in Ht.
  { injection Ht as -> _. destruct a; discriminate Habc. }
  injection Ht as _ Ht. destruct t1 as [|x3 t1]; cbn [app] in Ht.
  { injection Ht as -> _. destruct a, b; discriminate Habc. }
  injection Ht as _ Ht. destruct t1 as [|x4 t1]; cbn [app] in Ht.
  { injection Ht as _ _ <- <-. exists label, ev, t3.
    split; [|exact Hev]. congruence. }
  injection Ht as _ Ht. destruct t1 as [|x5 t1]; cbn [app] in Ht.
  { discriminate Ht. }
  injection Ht as _ Ht. destruct t1 as [|x6 t1]; cbn [app] in Ht.
  { discriminate Ht. }
  injection Ht as _ Ht. exact (IH t1 url' b' o' t2 v' Ht Hv').
Qed.

(** In the loop, whatever a request returned is printed, and the yes/no
    question follows. *)
Lemma followup_loop_displayed (e : env) (llm : CustomLLM) (feedback : json)
    (stdin : list string) (n : nat) :
  displayed_then_asks e (followup_loop e llm feedback n stdin).1.
Proof.
  revert stdin n.
  apply (followup_loop_cases e llm feedback
           (fun _ _ r => displayed_then_asks e r.1)).
  - intros n t1 url b o t2 v Ht _. cbn [fst] in Ht.
    destruct t1 as [|x1 [|x2 t1]]; discriminate Ht.
  - intros n line rest _ t1 url b o t2 v Ht _. cbn [fst] in Ht.
    destruct t1 as [|x1 [|x2 t1]]; discriminate Ht.
  - intros n line _ t1 url b o t2 v Ht _. cbn [fst] in Ht.
    destruct t1 as [|x1 [|x2 [|x3 t1]]]; discriminate Ht.
  - intros n line qline rest _ _ t1 url b o t2 v Ht _. cbn [fst] in Ht.
    destruct t1 as [|x1 [|x2 [|x3 [|x4 t1]]]]; discriminate Ht.
  - intros n line qline rest p ex _ _ _ Hcall t1 url b o t2 v Ht Hv.
    cbn [fst] in Ht.
    destruct t1 as [|x1 [|x2 [|x3 [|x4 [|x5 t1]]]]]; try discriminate Ht.
    injection Ht as _ _ _ _ _ Ho _. rewrite <- Ho in Hv. congruence.
  - intros n line qline rest p v _ _ _ Hcall IH. unfold after. cbn [fst].
    apply displayed_then_asks_block;
      [reflexivity | exact Hcall | apply followup_loop_first | exact IH].
Qed.

(** A session that reached the loop has the shape of [session_shape], and
    in it every returned value is printed and followed by the yes/no
    question. *)
Lemma run_analysis_shape (e : env) (api_url model_name pdf_path text : string)
    (stdin : list string) (v0 : json) :
  path_exists e pdf_path = true ->
  extract_text e pdf_path = Extracted text ->
  strip text <> "" ->
  call_result
    (post e 0 api_url
       (request_body {| api_url := api_url; model_name := model_name;
                        llm_temperature := Qmake 7 10 |}
          (resume_head +:+ text +:+ resume_tail))) = Ret v0 ->
  session_shape e api_url model_name text (resume_head +:+ text +:+ resume_tail)
    v0 stdin (run_analysis e api_url model_name pdf_path stdin).1 /\
  displayed_then_asks e (run_analysis e api_url model_name pdf_path stdin).1.
Proof.
  intros Hex Htext Hne Hv0.
  rewrite (run_analysis_to_loop _ _ _ _ _ _ _ Hex Htext Hne Hv0).
  unfold after. cbn [fst]. split.
  - destruct (followup_loop_reads e (client api_url model_name) v0 stdin 1)
      as [unread Hu].
    eexists _, unread. split; [reflexivity|].
    split; [apply followup_loop_shape | exact Hu].
  - apply displayed_then_asks_block;
      [reflexivity | exact Hv0 | apply followup_loop_first
      | apply followup_loop_displayed].
Qed.

(** ** Feedback across rounds *)

Lemma substring_prefix (s b : string) :
  substring 0 (String.length s) (s +:+ b) = s.
Proof.
  induction s as [|c s IH].
  - destruct b; reflexivity.
  - rewrite str_app_cons. simpl. rewrite IH. reflexivity.
Qed.

Lemma substring_embedded (a s b : string) :
  substring (String.length a) (String.length s) (a +:+ s +:+ b) = s.
Proof.
  induction a as [|c a IH]; [exact (substring_prefix s b)|].
  rewrite str_app_cons. simpl. exact IH.
Qed.

(** A string that [index] does not find is not embedded. *)
Lemma not_embeds_by_index (s p : string) :
  s <> "" -> index 0 s p = None -> ~ embeds s p.
Proof.
  intros Hne Hi (a & b & ->).
  apply (index_correct3 0 (String.length a) s _ Hi Hne); [lia|].
  apply substring_embedded.
Qed.

(** C1, as the code has it: the feedback of the initial analysis is stored
    once.  Every follow-up round reads the answer and the question, builds
    its prompt from that stored feedback and the question just read
    (stripped), sends it, and prints what comes back without storing it;
    so every follow-up prompt embeds the initial feedback as it is, and the
    session is the analysis followed by such rounds and an ending. *)
Theorem C1_followups_use_initial_feedback (e : env)
    (api_url model_name pdf_path text p0 : string) (stdin : list string)
    (v0 : json) :
  path_exists e pdf_path = true ->
  extract_text e pdf_path = Extracted text ->
  strip text <> "" ->
  resume_prompt text = Ret p0 ->
  call_result
    (post e 0 api_url
       (request_body {| api_url := api_url; model_name := model_name;
                        llm_temperature := Qmake 7 10 |} p0)) = Ret v0 ->
  (exists rest,
     llm_calls (run_analysis e api_url model_name pdf_path stdin).1
     = (p0, Ret v0) :: rest /\
     Forall (built_from (py_str e v0) stdin) rest) /\
  session_shape e api_url model_name text p0 v0 stdin
    (run_analysis e api_url model_name pdf_path stdin).1.
Proof.
  intros Hex Htext Hne Hp0 Hv0.
  rewrite resume_prompt_eq in Hp0. injection Hp0 as <-.
  split; [|exact (proj1 (run_analysis_shape _ _ _ _ _ stdin _ Hex Htext Hne Hv0))].
  rewrite (run_analysis_to_loop _ _ _ _ _ _ _ Hex Htext Hne Hv0).
  unfold after. cbn [fst]. rewrite llm_calls_app.
  cbn [llm_calls app user_prompt request_body messages]. rewrite Hv0.
  eexists. split; [reflexivity|]. apply followup_loop_calls.
Qed.

Lemma C1_followups_use_initial_feedback_witness :
  (exists rest,
     llm_calls (run_analysis (world "Jane Doe" three_answers) API_URL MODEL_NAME
                  "cv.pdf" two_questions).1
     = (resume_head +:+ "Jane Doe" +:+ resume_tail, Ret (JStr "ALPHA")) :: rest /\
     Forall (built_from "ALPHA" two_questions) rest) /\
  session_shape (world "Jane Doe" three_answers) API_URL MODEL_NAME "Jane Doe"
    (resume_head +:+ "Jane Doe" +:+ resume_tail) (JStr "ALPHA") two_questions
    (run_analysis (world "Jane Doe" three_answers) API_URL MODEL_NAME
       "cv.pdf" two_questions).1.
Proof.
  apply (C1_followups_use_initial_feedback (world "Jane Doe" three_answers)
           API_URL MODEL_NAME "cv.pdf" "Jane Doe"
           (resume_head +:+ "Jane Doe" +:+ resume_tail) two_questions
           (JStr "ALPHA")).
  - reflexivity.
  - reflexivity.
  - discriminate.
  - reflexivity.
  - reflexivity.
Defined.

(** C1, as it is written, fails in a session with two follow-up rounds:
    the first follow-up returns BRAVO, and the prompt of the second one is
    built from ALPHA, the initial feedback, and does not embed BRAVO. *)
Lemma C1_counterexample :
  ~ chained (world "Jane Doe" three_answers)
      (llm_calls (run_analysis (world "Jane Doe" three_answers) API_URL
                    MODEL_NAME "cv.pdf" two_questions).1).
Proof.
  intros H.
  assert (Hcalls :
    llm_calls (run_analysis (world "Jane Doe" three_answers) API_URL
                 MODEL_NAME "cv.pdf" two_questions).1
    = [(resume_head +:+ "Jane Doe" +:+ resume_tail, Ret (JStr "ALPHA"));
       (followup_head +:+ "ALPHA" +:+ followup_mid
          +:+ "How do I improve my summary?" +:+ followup_tail,
        Ret (JStr "BRAVO"));
       (followup_head +:+ "ALPHA" +:+ followup_mid
          +:+ "And my skills section?" +:+ followup_tail,
        Ret (JStr "CHARLIE"))]) by (vm_compute; reflexivity).
  rewrite Hcalls in H.
  specialize (H 1%nat _ _ _ _ eq_refl eq_refl).
  revert H. apply not_embeds_by_index; [discriminate | vm_compute; reflexivity].
Qed.

Lemma call_result_failure (outcome : post_result) :
  transport_failure outcome ->
  exists msg, call_result outcome = Ret (JStr ("Network or request error: " +:+ msg)).
Proof.
  destruct outcome as [m|r|ex]; simpl; intros H; [eauto| |destruct H].
  destruct (raise_for_status_error _ H) as [msg ->]. eauto.
Qed.

(** C2, as the code has it: the stored feedback is whatever string the
    initial request returned, the reply of the model or, when that request
    failed, its error message.  Either way the session prints it and goes
    on to the yes/no question.  Every follow-up round then builds its
    prompt from that same string and the question just read; what the
    round's request returns, reply and error message alike, is printed, is
    never stored, and is followed by the yes/no question again. *)
Theorem C2_feedback_is_initial_result (e : env)
    (api_url model_name pdf_path text p0 : string) (stdin : list string)
    (v0 : json) :
  path_exists e pdf_path = true ->
  extract_text e pdf_path = Extracted text ->
  strip text <> "" ->
  resume_prompt text = Ret p0 ->
  call_result
    (post e 0 api_url
       (request_body {| api_url := api_url; model_name := model_name;
                        llm_temperature := Qmake 7 10 |} p0)) = Ret v0 ->
  existsb asks_followup
    (run_analysis e api_url model_name pdf_path stdin).1 = true /\
  In (py_str e v0) (printed (run_analysis e api_url model_name pdf_path stdin).1) /\
  (exists rest,
     llm_calls (run_analysis e api_url model_name pdf_path stdin).1
     = (p0, Ret v0) :: rest /\
     Forall (fun c => exists q, followup_prompt (py_str e v0) q = Ret c.1) rest) /\
  (transport_failure
     (post e 0 api_url
        (request_body {| api_url := api_url; model_name := model_name;
                         llm_temperature := Qmake 7 10 |} p0)) ->
   exists msg, v0 = JStr ("Network or request error: " +:+ msg)) /\
  session_shape e api_url model_name text p0 v0 stdin
    (run_analysis e api_url model_name pdf_path stdin).1 /\
  displayed_then_asks e (run_analysis e api_url model_name pdf_path stdin).1.
Proof.
  intros Hex Htext Hne Hp0 Hv0.
  rewrite resume_prompt_eq in Hp0. injection Hp0 as <-.
  pose proof (run_analysis_shape _ _ _ _ _ stdin _ Hex Htext Hne Hv0)
    as [Hshape Hshown].
  rewrite (run_analysis_to_loop _ _ _ _ _ _ _ Hex Htext Hne Hv0) in *.
  unfold after in *. cbn [fst] in *.
  split; [|split; [|split; [|split; [|split; [exact Hshape | exact Hshown]]]]].
  - rewrite existsb_app, followup_loop_asks. apply Bool.orb_true_r.
  - rewrite printed_app. apply in_or_app. left. simpl. tauto.
  - rewrite llm_calls_app.
    cbn [llm_calls app user_prompt request_body messages]. rewrite Hv0.
    eexists. split; [reflexivity|].
    eapply Forall_impl; [apply followup_loop_calls|].
    intros c (q & _ & _ & Hq & _). eauto.
  - intros Hfail. destruct (call_result_failure _ Hfail) as [msg Hmsg].
    exists msg. congruence.
Qed.

Lemma C2_feedback_is_initial_result_witness :
  existsb asks_followup
    (run_analysis (world "Jane Doe" refused) API_URL MODEL_NAME "cv.pdf"
       one_question).1 = true /\
  In "Network or request error: connection refused"
     (printed (run_analysis (world "Jane Doe" refused) API_URL MODEL_NAME
                 "cv.pdf" one_question).1) /\
  (exists rest,
     llm_calls (run_analysis (world "Jane Doe" refused) API_URL MODEL_NAME
                  "cv.pdf" one_question).1
     = (resume_head +:+ "Jane Doe" +:+ resume_tail,
        Ret (JStr "Network or request error: connection refused")) :: rest /\
     Forall (fun c => exists q,
               followup_prompt "Network or request error: connection refused" q
               = Ret c.1) rest) /\
  (transport_failure (refused 0) ->
   exists msg,
     JStr "Network or request error: connection refused"
     = JStr ("Network or request error: " +:+ msg)) /\
  session_shape (world "Jane Doe" refused) API_URL MODEL_NAME "Jane Doe"
    (resume_head +:+ "Jane Doe" +:+ resume_tail)
    (JStr "Network or request error: connection refused") one_question
    (run_analysis (world "Jane Doe" refused) API_URL MODEL_NAME "cv.pdf"
       one_question).1 /\
  displayed_then_asks (world "Jane Doe" refused)
    (run_analysis (world "Jane Doe" refused) API_URL MODEL_NAME "cv.pdf"
       one_question).1.
Proof.
  apply (C2_feedback_is_initial_result (world "Jane Doe" refused)
           API_URL MODEL_NAME "cv.pdf" "Jane Doe"
           (resume_head +:+ "Jane Doe" +:+ resume_tail) one_question
           (JStr "Network or request error: connection refused")).
  - reflexivity.
  - reflexivity.
  - discriminate.
  - reflexivity.
  - reflexivity.
Defined.

(** C2, as it is written, fails when the initial request fails: its error
    message becomes the stored feedback, and the prompt of the follow-up
    round embeds it. *)
Lemma C2_counterexample :
  transport_failure (refused 0) /\
  exists p0 p1 r1,
    llm_calls (run_analysis (world "Jane Doe" refused) API_URL MODEL_NAME
                 "cv.pdf" one_question).1
    = [(p0, Ret (JStr "Network or request error: connection refused"));
       (p1, r1)] /\
    embeds "Network or request error: connection refused" p1.
Proof.
  split; [exact I|].
  eexists _, _, _. split; [vm_compute; reflexivity|].
  exists followup_head,
    (followup_mid +:+ "How do I improve my summary?" +:+ followup_tail).
  vm_compute. reflexivity.
Qed.

(** The session of the specification's example, an answer of yes, one
    question and an answer of no, makes two requests: the analysis and one
    follow-up, whose prompt carries the feedback of the analysis. *)
Example one_question_two_calls :
  llm_calls (run_analysis (world "Jane Doe" three_answers) API_URL MODEL_NAME
               "cv.pdf" one_question).1
  = [(resume_head +:+ "Jane Doe" +:+ resume_tail, Ret (JStr "ALPHA"));
     (followup_head +:+ "ALPHA" +:+ followup_mid
        +:+ "How do I improve my summary?" +:+ followup_tail,
      Ret (JStr "BRAVO"))].
Proof. vm_compute. reflexivity. Qed.

(** [main] strips whitespace and then double quotes from the path it reads,
    and hands the rest of the input to the session. *)
Example main_quoted_path :
  main (world "Jane Doe" great)
       [String " " (String dquote ("cv.pdf" +:+ String dquote " ")); "no"]
  = [Input ask_path (String " " (String dquote ("cv.pdf" +:+ String dquote " ")))] ;>
    run_analysis (world "Jane Doe" great) API_URL MODEL_NAME "cv.pdf" ["no"].
Proof. reflexivity. Qed.

(** * Further properties of the code *)

(** ** The client: which responses it can read *)

Lemma call_result_responded (r : response) :
  ~ (400 <= status_code r < 600)%Z ->
  call_result (Responded r) = extract_content r.
Proof. intros H. unfold call_result. rewrite (raise_for_status_ok _ H). reflexivity. Qed.

Lemma extract_content_shape (r : response) :
  (exists v, extract_content r = Ret v) <->
  (exists j, body r = Some j /\ well_shaped j = true).
Proof.
  unfold extract_content, json_of. destruct (body r) as [j|]; simpl.
  2:{ split; [intros [v H]; discriminate | intros (j & H & _); discriminate]. }
  split.
  - intros [v H]. exists j. split; [reflexivity|].
    destruct j as [| | | |items|fields]; simpl in H; try discriminate H.
    simpl. destruct (fields !! "choices") as [c|]; [|reflexivity].
    simpl in H.
    destruct c as [| | |s|[|x more]|cf]; simpl in H; try discriminate H.
    { destruct s; discriminate H. }
    destruct x as [| | | | |first]; simpl in H; try discriminate H.
    destruct (first !! "message") as [m|]; [|reflexivity].
    simpl in H. destruct m; simpl in H; try discriminate H. reflexivity.
  - intros (j' & [= <-] & Hshape).
    destruct j as [| | | |items|fields]; simpl in Hshape; try discriminate Hshape.
    simpl. destruct (fields !! "choices") as [c|]; simpl.
    + destruct c as [| | |s|[|x more]|cf]; try discriminate Hshape.
      destruct x as [| | | | |first]; try discriminate Hshape. simpl.
      destruct (first !! "message") as [m|]; simpl.
      * destruct m; try discriminate Hshape. simpl. eauto.
      * rewrite lookup_empty. simpl. eauto.
    + rewrite lookup_empty. simpl. rewrite lookup_empty. simpl. eauto.
Qed.

(** [_call] returns a value, instead of raising, in exactly two cases: the
    request failed (the library raised, or the status is 400-599), or the
    body decodes to an object whose [choices], when present, is a list that
    starts with an object whose [message], when present, is an object.
    Every other response makes [_call] raise. *)
Theorem call_returns_iff (e : env) (n : nat) (self : CustomLLM) (prompt : string) :
  (exists v, (_call e n self prompt).2 = Ret v) <->
  transport_failure (post e n (api_url self) (request_body self prompt)) \/
  exists r j,
    post e n (api_url self) (request_body self prompt) = Responded r /\
    body r = Some j /\ well_shaped j = true.
Proof.
  unfold _call. simpl.
  destruct (post e n (api_url self) (request_body self prompt)) as [m|r|ex].
  3:{ split; [intros [v H]; discriminate H|].
      intros [[] | (r & j & H & _)]; discriminate H. }
  - split; [intros _; left; exact I | intros _; simpl; eauto].
  - destruct (decide (400 <= status_code r < 600)%Z) as [Herr | Hok].
    + split; [intros _; left; exact Herr|]. intros _.
      destruct (call_result_failure (Responded r) Herr) as [msg ->]. eauto.
    + rewrite (call_result_responded _ Hok), extract_content_shape. split.
      * intros (j & Hb & Hs). right. eauto.
      * intros [Herr | (r' & j & [= <-] & Hb & Hs)]; [contradiction | eauto].
Qed.

(** When the body is an object that lacks [choices], or whose first choice
    lacks [message], or whose message lacks [content], [_call] returns the
    sentinel string. *)
Theorem call_sentinel_for_missing_key (e : env) (n : nat) (self : CustomLLM)
    (prompt : string) (r : response) (fields : gmap string json) :
  post e n (api_url self) (request_body self prompt) = Responded r ->
  ~ (400 <= status_code r < 600)%Z ->
  body r = Some (JObj fields) ->
  fields !! "choices" = None \/
  (exists first more,
      fields !! "choices" = Some (JArr (JObj first :: more)) /\
      (first !! "message" = None \/
       exists message,
         first !! "message" = Some (JObj message) /\
         message !! "content" = None)) ->
  (_call e n self prompt).2 = Ret (JStr "No valid response.").
Proof.
  intros Hpost Hst Hbody Hshape. unfold _call. simpl. rewrite Hpost.
  exact (sentinel_when_key_missing r fields Hst Hbody Hshape).
Qed.

Lemma call_sentinel_for_missing_key_witness :
  (_call (world "Jane Doe" (fun _ => no_choices)) 0 llm "hello").2
  = Ret (JStr "No valid response.").
Proof.
  apply (call_sentinel_for_missing_key (world "Jane Doe" (fun _ => no_choices))
           0 llm "hello"
           {| status_code := 200; reason := "OK"; url := API_URL;
               json_error := JSONDecodeError;
              body := Some (JObj {[ "error" := JStr "model not loaded" ]}) |}
           {[ "error" := JStr "model not loaded" ]}).
  - reflexivity.
  - simpl. lia.
  - reflexivity.
  - left. reflexivity.
Defined.

(** A [content] that is present is returned as it is, whatever its type:
    the sentinel stands in for a missing key only, not for [null], a number
    or a list. *)
Theorem call_returns_content_of_any_type (e : env) (n : nat) (self : CustomLLM)
    (prompt : string) (r : response) (fields first message : gmap string json)
    (more : list json) (v : json) :
  post e n (api_url self) (request_body self prompt) = Responded r ->
  ~ (400 <= status_code r < 600)%Z ->
  body r = Some (JObj fields) ->
  fields !! "choices" = Some (JArr (JObj first :: more)) ->
  first !! "message" = Some (JObj message) ->
  message !! "content" = Some v ->
  (_call e n self prompt).2 = Ret v.
Proof.
  intros Hpost Hst Hbody Hchoices Hmessage Hcontent.
  unfold _call. simpl. rewrite Hpost, (call_result_responded _ Hst).
  unfold extract_content, json_of. rewrite Hbody. simpl.
  rewrite Hchoices. simpl. rewrite Hmessage. simpl. rewrite Hcontent.
  reflexivity.
Qed.

Lemma call_returns_content_of_any_type_witness :
  (_call (world "Jane Doe" (fun _ => null_content)) 0 llm "hello").2 = Ret JNull.
Proof.
  apply (call_returns_content_of_any_type
           (world "Jane Doe" (fun _ => null_content)) 0 llm "hello"
           {| status_code := 200; reason := "OK"; url := API_URL;
               json_error := JSONDecodeError;
              body := Some (JObj {[ "choices" :=
                JArr [JObj {[ "message" := JObj {[ "content" := JNull ]} ]}] ]}) |}
           {[ "choices" :=
                JArr [JObj {[ "message" := JObj {[ "content" := JNull ]} ]}] ]}
           {[ "message" := JObj {[ "content" := JNull ]} ]}
           {[ "content" := JNull ]}
           [] JNull).
  - reflexivity.
  - simpl. lia.
  - reflexivity.
  - reflexivity.
  - reflexivity.
  - reflexivity.
Defined.

(** ** The session: its shape in every case *)

(** The session, case by case: no file, no extraction, no text, a first
    request that raises, or the loop entered with the first result. *)
Lemma run_analysis_cases (e : env) (api_url model_name pdf_path : string)
    (stdin : list string) (P : run -> Prop) :
  (path_exists e pdf_path = false ->
   P ([Print ("File not found: " +:+ pdf_path)], Ret tt)) ->
  (forall msg,
      extract_text e pdf_path = ExtractionFails msg ->
      P ([Print ("Error extracting text from PDF: " +:+ msg)], Ret tt)) ->
  (forall text,
      extract_text e pdf_path = Extracted text ->
      strip text = "" ->
      P ([Print "No text extracted from PDF."], Ret tt)) ->
  (forall text p0 ex,
      extract_text e pdf_path = Extracted text ->
      strip text <> "" ->
      resume_prompt text = Ret p0 ->
      call_result (post e 0 api_url (request_body (client api_url model_name) p0))
      = Raise ex ->
      P ([Print (nl +:+ "Extracted Resume Text Preview:" +:+ nl);
          Print (preview text);
          Print (nl +:+ "Analyzing resume with the language model..." +:+ nl);
          Post api_url (request_body (client api_url model_name) p0)
               (post e 0 api_url (request_body (client api_url model_name) p0))],
         Raise ex)) ->
  (forall text p0 v0,
      extract_text e pdf_path = Extracted text ->
      strip text <> "" ->
      resume_prompt text = Ret p0 ->
      call_result (post e 0 api_url (request_body (client api_url model_name) p0))
      = Ret v0 ->
      P ([Print (nl +:+ "Extracted Resume Text Preview:" +:+ nl);
          Print (preview text);
          Print (nl +:+ "Analyzing resume with the language model..." +:+ nl);
          Post api_url (request_body (client api_url model_name) p0)
               (post e 0 api_url (request_body (client api_url model_name) p0));
          Print ("Model Feedback:" +:+ nl); Print (py_str e v0)] ;>
         followup_loop e (client api_url model_name) v0 1 stdin)) ->
  P (run_analysis e api_url model_name pdf_path stdin).
Proof.
  intros Hmissing Hfails Hblank Hraise Hloop.
  destruct (path_exists e pdf_path) eqn:Hex.
  2:{ unfold run_analysis. rewrite Hex. cbn [negb]. now apply Hmissing. }
  destruct (extract_text e pdf_path) as [text|msg] eqn:Htext.
  2:{ unfold run_analysis, extract_text_from_pdf. rewrite Hex, Htext.
      cbn [negb]. now apply Hfails. }
  destruct (string_dec (strip text) "") as [Hs | Hs].
  { unfold run_analysis, extract_text_from_pdf. rewrite Hex, Htext, Hs.
    cbn [negb is_empty]. now apply (Hblank text). }
  destruct (call_result
              (post e 0 api_url
                 (request_body (client api_url model_name)
                    (resume_head +:+ text +:+ resume_tail)))) as [v0|ex] eqn:Hcall.
  - rewrite (run_analysis_to_loop _ _ _ _ _ _ _ Hex Htext Hs Hcall).
    exact (Hloop text _ v0 eq_refl Hs (resume_prompt_eq text) Hcall).
  - assert (Hrun : run_analysis e api_url model_name pdf_path stdin
      = ([Print (nl +:+ "Extracted Resume Text Preview:" +:+ nl);
          Print (preview text);
          Print (nl +:+ "Analyzing resume with the language model..." +:+ nl);
          Post api_url
            (request_body (client api_url model_name)
               (resume_head +:+ text +:+ resume_tail))
            (post e 0 api_url
               (request_body (client api_url model_name)
                  (resume_head +:+ text +:+ resume_tail)))],
         Raise ex)).
    { unfold run_analysis, extract_text_from_pdf. rewrite Hex, Htext. cbn [negb].
      destruct (is_empty (strip text)) eqn:Hempty.
      { apply is_empty_true in Hempty. contradiction. }
      rewrite resume_prompt_eq. unfold _call. cbn [Bot.api_url].
      fold (client api_url model_name). rewrite Hcall. reflexivity. }
    rewrite Hrun.
    exact (Hraise text _ ex eq_refl Hs (resume_prompt_eq text) Hcall).
Qed.

(** ** The session: what it sends *)





(** ** The session: how many requests *)

Lemma followup_loop_bound (e : env) (llm : CustomLLM) (feedback : json)
    (stdin : list string) (n : nat) :
  (2 * List.length (llm_calls (followup_loop e llm feedback n stdin).1)
   <= List.length stdin)%nat.
Proof.
  revert stdin n.
  apply (followup_loop_cases e llm feedback
           (fun _ stdin r =>
              (2 * List.length (llm_calls r.1) <= List.length stdin)%nat)).
  - intros. simpl. lia.
  - intros. simpl. lia.
  - intros. simpl. lia.
  - intros. simpl. lia.
  - intros. simpl. lia.
  - intros n line qline rest p v _ _ _ _ IH. unfold after. cbn [fst].
    rewrite llm_calls_app. rewrite length_app. simpl List.length. simpl in IH. lia.
Qed.

(** A session makes at most one request for the analysis and one for every
    two lines of input (an answer and a question). *)
Theorem session_requests_bound (e : env) (api_url model_name pdf_path : string)
    (stdin : list string) :
  (2 * List.length (llm_calls (run_analysis e api_url model_name pdf_path stdin).1)
   <= 2 + List.length stdin)%nat.
Proof.
  apply (run_analysis_cases e api_url model_name pdf_path stdin
           (fun r => (2 * List.length (llm_calls r.1) <= 2 + List.length stdin)%nat)).
  - intros. simpl. lia.
  - intros. simpl. lia.
  - intros. simpl. lia.
  - intros. simpl. lia.
  - intros text p0 v0 _ _ _ _. unfold after. cbn [fst].
    rewrite llm_calls_app, length_app.
    pose proof (followup_loop_bound e (client api_url model_name) v0 stdin 1) as H.
    simpl List.length at 1. simpl in H. lia.
Qed.

(** ** The session: what it shows and how it ends *)

Lemma all_results_printed_app (e : env) (a b : list event) :
  all_results_printed e a -> all_results_printed e b ->
  all_results_printed e (a ++ b).
Proof.
  unfold all_results_printed. intros Ha Hb.
  rewrite llm_calls_app, printed_app. apply Forall_app. split.
  - eapply Forall_impl; [exact Ha|]. intros c H v Hv.
    apply in_or_app. left. exact (H v Hv).
  - eapply Forall_impl; [exact Hb|]. intros c H v Hv.
    apply in_or_app. right. exact (H v Hv).
Qed.

Lemma followup_loop_prints (e : env) (llm : CustomLLM) (feedback : json)
    (stdin : list string) (n : nat) :
  all_results_printed e (followup_loop e llm feedback n stdin).1.
Proof.
  revert stdin n.
  apply (followup_loop_cases e llm feedback
           (fun _ _ r => all_results_printed e r.1)).
  - intros. constructor.
  - intros. constructor.
  - intros. constructor.
  - intros. constructor.
  - intros n line qline rest p ex _ _ _ Hcall.
    constructor; [|constructor]. cbn [snd]. intros v Hv. congruence.
  - intros n line qline rest p v _ _ _ Hcall IH. unfold after. cbn [fst].
    apply all_results_printed_app; [|exact IH].
    constructor; [|constructor]. cbn [snd]. rewrite Hcall.
    intros v' [= <-]. simpl. tauto.
Qed.

(** Whatever a request returns, the reply of the model, the sentinel or an
    error message, the session prints it: the result of the analysis and
    the result of every follow-up round are among the printed lines. *)
Theorem session_prints_every_result (e : env)
    (api_url model_name pdf_path : string) (stdin : list string) :
  all_results_printed e (run_analysis e api_url model_name pdf_path stdin).1.
Proof.
  apply run_analysis_cases.
  - intros. constructor.
  - intros. constructor.
  - intros. constructor.
  - intros text p0 ex _ _ _ Hcall.
    constructor; [|constructor]. cbn [snd]. intros v Hv. congruence.
  - intros text p0 v0 _ _ _ Hcall. unfold after. cbn [fst].
    apply all_results_printed_app; [|apply followup_loop_prints].
    constructor; [|constructor]. cbn [snd]. rewrite Hcall.
    intros v' [= <-]. simpl. tauto.
Qed.

Lemma ended_by_call_after (evs : list event) (r : run) (ex : exn) :
  ended_by_call r ex -> ended_by_call (evs ;> r) ex.
Proof.
  intros (Hr & t & url & b & o & Ht & Ho). split; [exact Hr|].
  exists (evs ++ t)%list, url, b, o. split; [|exact Ho].
  unfold after. cbn [fst]. rewrite Ht. apply List.app_assoc.
Qed.

Lemma followup_loop_raise (e : env) (llm : CustomLLM) (feedback : json)
    (stdin : list string) (n : nat) (p : string) (ex : exn) :
  In (p, Raise ex) (llm_calls (followup_loop e llm feedback n stdin).1) ->
  ended_by_call (followup_loop e llm feedback n stdin) ex.
Proof.
  revert stdin n.
  apply (followup_loop_cases e llm feedback
           (fun _ _ r => In (p, Raise ex) (llm_calls r.1) -> ended_by_call r ex)).
  - intros n [].
  - intros n line rest _ [].
  - intros n line _ [].
  - intros n line qline rest _ _ [].
  - intros n line qline rest p' ex' _ _ _ Hcall Hin.
    cbn [fst llm_calls] in Hin. rewrite Hcall in Hin.
    destruct Hin as [[= _ <-] | []].
    split; [reflexivity|].
    eexists [_; _; _], _, _, _. split; [reflexivity | exact Hcall].
  - intros n line qline rest p' v _ _ _ Hcall IH Hin.
    apply ended_by_call_after. apply IH.
    unfold after in Hin. cbn [fst] in Hin. rewrite llm_calls_app in Hin.
    cbn [llm_calls app] in Hin. rewrite Hcall in Hin.
    destruct Hin as [Hin | Hin]; [discriminate Hin | exact Hin].
Qed.

(** An exception of [_call] is never swallowed: as soon as one request,
    the analysis or a follow-up, makes [_call] raise, the session ends with
    that exception, and that request is the last thing it did. *)
Theorem session_ends_when_call_raises (e : env)
    (api_url model_name pdf_path : string) (stdin : list string)
    (p : string) (ex : exn) :
  In (p, Raise ex)
     (llm_calls (run_analysis e api_url model_name pdf_path stdin).1) ->
  ended_by_call (run_analysis e api_url model_name pdf_path stdin) ex.
Proof.
  apply (run_analysis_cases e api_url model_name pdf_path stdin
           (fun r => In (p, Raise ex) (llm_calls r.1) -> ended_by_call r ex)).
  - intros _ [].
  - intros msg _ [].
  - intros text _ _ [].
  - intros text p0 ex' _ _ _ Hcall Hin.
    cbn [fst llm_calls] in Hin. rewrite Hcall in Hin.
    destruct Hin as [[= _ <-] | []].
    split; [reflexivity|].
    eexists [_; _; _], _, _, _. split; [reflexivity | exact Hcall].
  - intros text p0 v0 _ _ _ Hcall Hin.
    apply ended_by_call_after.
    unfold after in Hin. cbn [fst] in Hin. rewrite llm_calls_app in Hin.
    cbn [llm_calls app] in Hin. rewrite Hcall in Hin.
    destruct Hin as [Hin | Hin]; [discriminate Hin|].
    eapply followup_loop_raise. exact Hin.
Qed.

Lemma session_ends_when_call_raises_witness :
  ended_by_call
    (run_analysis (world "Jane Doe" fails_second) API_URL MODEL_NAME "cv.pdf"
       two_questions) IndexError.
Proof.
  apply (session_ends_when_call_raises (world "Jane Doe" fails_second)
           API_URL MODEL_NAME "cv.pdf" two_questions
           (followup_head +:+ "ALPHA" +:+ followup_mid
              +:+ "How do I improve my summary?" +:+ followup_tail)
           IndexError).
  vm_compute. right. left. reflexivity.
Defined.

(** When the PDF library raises on the file, the session prints the text of
    the exception behind a fixed label and ends normally; no prompt is
    built and no request is made. *)
Theorem extraction_failure_ends_session (e : env)
    (api_url model_name pdf_path msg : string) (stdin : list string) :
  path_exists e pdf_path = true ->
  extract_text e pdf_path = ExtractionFails msg ->
  run_analysis e api_url model_name pdf_path stdin
    = ([Print ("Error extracting text from PDF: " +:+ msg)], Ret tt) /\
  llm_calls (run_analysis e api_url model_name pdf_path stdin).1 = [].
Proof.
  intros Hex Hfail. unfold run_analysis, extract_text_from_pdf.
  rewrite Hex, Hfail. split; reflexivity.
Qed.

Lemma extraction_failure_ends_session_witness :
  broken_session
    = ([Print "Error extracting text from PDF: No /Root object! - Is this really a PDF?"],
       Ret tt) /\
  llm_calls broken_session.1 = [].
Proof.
  apply (extraction_failure_ends_session broken_pdf API_URL MODEL_NAME "cv.pdf"
           "No /Root object! - Is this really a PDF?" ["yes"]); reflexivity.
Defined.

(** ** The prompts and the preview *)

(** If two follow-up prompts are the same text, then the analyses agree
    exactly when the questions agree: with the analysis fixed the prompt
    determines the question, and with the question fixed it determines the
    analysis. *)
Theorem followup_prompt_injective_in_each (a1 q1 a2 q2 : string) :
  followup_prompt a1 q1 = followup_prompt a2 q2 ->
  (a1 = a2 <-> q1 = q2).
Proof.
  rewrite !followup_prompt_eq. intros [= H].
  apply str_app_inv_head in H. split; intros ->.
  - do 2 apply str_app_inv_head in H. now apply str_app_inv_tail in H.
  - now apply str_app_inv_tail in H.
Qed.

Lemma followup_prompt_injective_in_each_witness :
  ("A" +:+ followup_mid +:+ "B" = "A" <-> "Q" = "B" +:+ followup_mid +:+ "Q").
Proof.
  apply (followup_prompt_injective_in_each
           ("A" +:+ followup_mid +:+ "B") "Q" "A" ("B" +:+ followup_mid +:+ "Q")).
  reflexivity.
Defined.

(** The follow-up prompt does not keep the analysis and the question
    apart: an analysis that contains the text standing between the two
    fields gives the same prompt as a shorter analysis with a longer
    question. *)
Theorem followup_prompt_fields_can_shift (a b q : string) :
  followup_prompt (a +:+ followup_mid +:+ b) q
  = followup_prompt a (b +:+ followup_mid +:+ q).
Proof.
  rewrite !followup_prompt_eq. f_equal. f_equal.
  rewrite !str_app_assoc. reflexivity.
Qed.

Lemma take_take_app (n : nat) (s x : string) :
  (n <= String.length s)%nat -> take n (take n s +:+ x) = take n s.
Proof.
  revert s. induction n as [|n IH]; intros [|c s] H;
    try reflexivity; simpl in H; try lia.
  change (take (S n) (String c (take n s +:+ x)) = String c (take n s)).
  simpl. rewrite IH by lia. reflexivity.
Qed.

(** The preview is bounded and faithful: it is never longer than 503
    characters, and its first 500 characters are the first 500 characters
    of the text. *)
Theorem preview_bounded (t : string) :
  (String.length (preview t) <= 503)%nat /\
  take 500 (preview t) = take 500 t.
Proof.
  unfold preview. destruct (Nat.ltb_spec 500 (String.length t)) as [H | H].
  - split.
    + rewrite str_app_length, take_length by lia. simpl. lia.
    + apply take_take_app. lia.
  - split; [lia | reflexivity].
Qed.

(** ** The path read by [main] *)

Lemma lstrip_with_all (p : ascii -> bool) (a s : string) :
  all_chars p a = true -> lstrip_with p (a +:+ s) = lstrip_with p s.
Proof.
  induction a as [|c a IH]; [reflexivity|].
  intros H. simpl in H. apply andb_prop in H as [Hc Ha].
  rewrite str_app_cons. simpl. rewrite Hc. auto.
Qed.

Lemma lstrip_with_clean (p : ascii -> bool) (s : string) :
  starts_clean p s = true -> lstrip_with p s = s.
Proof.
  destruct s as [|c s]; [reflexivity|]. simpl.
  destruct (p c); [discriminate | reflexivity].
Qed.

Lemma rstrip_with_all_empty (p : ascii -> bool) (b : string) :
  all_chars p b = true -> rstrip_with p b = "".
Proof.
  induction b as [|c b IH]; [reflexivity|].
  simpl. intros [Hc Hb]%andb_prop. rewrite (IH Hb), Hc. reflexivity.
Qed.

Lemma rstrip_with_all (p : ascii -> bool) (s b : string) :
  all_chars p b = true -> rstrip_with p (s +:+ b) = rstrip_with p s.
Proof.
  intros Hb. induction s as [|c s IH].
  - rewrite str_app_nil_l. apply rstrip_with_all_empty, Hb.
  - rewrite str_app_cons. simpl. rewrite IH. reflexivity.
Qed.

Lemma rstrip_with_clean (p : ascii -> bool) (s : string) :
  ends_clean p s = true -> rstrip_with p s = s.
Proof.
  induction s as [|c s IH]; [reflexivity|].
  destruct s as [|d s].
  - simpl. destruct (p c); [discriminate | reflexivity].
  - intros H. change (ends_clean p (String d s) = true) in H.
    change (rstrip_with p (String c (String d s)))
      with (match rstrip_with p (String d s) with
            | "" => if p c then "" else String c ""
            | r => String c r
            end).
    rewrite (IH H). reflexivity.
Qed.

Lemma starts_clean_app (p : ascii -> bool) (s t : string) :
  s <> "" -> starts_clean p (s +:+ t) = starts_clean p s.
Proof. destruct s; [congruence | reflexivity]. Qed.

Lemma ends_clean_app (p : ascii -> bool) (s t : string) :
  t <> "" -> ends_clean p (s +:+ t) = ends_clean p t.
Proof.
  intros Ht. induction s as [|c s IH]; [reflexivity|].
  rewrite str_app_cons.
  destruct (s +:+ t) eqn:Hst.
  - destruct s; [rewrite str_app_nil_l in Hst; congruence | discriminate Hst].
  - exact IH.
Qed.

Lemma str_app_not_nil_l (s t : string) : s <> "" -> s +:+ t <> "".
Proof. destruct s; [congruence | discriminate]. Qed.

Lemma str_app_not_nil_r (s t : string) : t <> "" -> s +:+ t <> "".
Proof.
  destruct s; [rewrite str_app_nil_l; auto | discriminate].
Qed.

Lemma is_quote_not_space (c : ascii) : is_quote c = true -> isspace c = false.
Proof.
  unfold is_quote. intros H. apply Ascii.eqb_eq in H. subst c. reflexivity.
Qed.

Lemma quotes_start_clean (q : string) :
  all_chars is_quote q = true -> starts_clean isspace q = true.
Proof.
  destruct q as [|c q]; [reflexivity|]. simpl.
  intros [Hc _]%andb_prop. rewrite (is_quote_not_space _ Hc). reflexivity.
Qed.

Lemma quotes_end_clean (q : string) :
  all_chars is_quote q = true -> ends_clean isspace q = true.
Proof.
  induction q as [|c q IH]; [reflexivity|].
  simpl all_chars. intros [Hc Hq]%andb_prop.
  destruct q as [|d q].
  - simpl. rewrite (is_quote_not_space _ Hc). reflexivity.
  - exact (IH Hq).
Qed.

(** What [main] makes of the line it reads.  Whitespace around the line is
    dropped first, then double quotes around what is left; so a path
    between quotes is read without them, and whitespace inside the quotes
    stays part of the path. *)
Lemma path_of_line (ws1 q1 path q2 ws2 : string) :
  all_chars isspace ws1 = true ->
  all_chars is_quote q1 = true ->
  all_chars is_quote q2 = true ->
  all_chars isspace ws2 = true ->
  path <> "" ->
  starts_clean is_quote path = true ->
  ends_clean is_quote path = true ->
  (q1 = "" -> starts_clean isspace path = true) ->
  (q2 = "" -> ends_clean isspace path = true) ->
  strip_quotes (strip (ws1 +:+ q1 +:+ path +:+ q2 +:+ ws2)) = path.
Proof.
  intros Hws1 Hq1 Hq2 Hws2 Hne Hsq Heq Hs He.
  assert (Hstart : starts_clean isspace (q1 +:+ path +:+ q2 +:+ ws2) = true).
  { destruct (string_dec q1 "") as [-> | Hq].
    - rewrite str_app_nil_l, starts_clean_app by exact Hne. auto.
    - rewrite starts_clean_app by exact Hq. apply quotes_start_clean, Hq1. }
  assert (Hend : ends_clean isspace (q1 +:+ path +:+ q2) = true).
  { destruct (string_dec q2 "") as [-> | Hq].
    - rewrite str_app_nil_r, ends_clean_app by exact Hne. auto.
    - rewrite ends_clean_app by (apply str_app_not_nil_r, Hq).
      rewrite ends_clean_app by exact Hq. apply quotes_end_clean, Hq2. }
  unfold strip, strip_with.
  rewrite (lstrip_with_all _ _ _ Hws1), (lstrip_with_clean _ _ Hstart).
  replace (q1 +:+ path +:+ q2 +:+ ws2) with ((q1 +:+ path +:+ q2) +:+ ws2)
    by (rewrite !str_app_assoc; reflexivity).
  rewrite (rstrip_with_all _ _ _ Hws2), (rstrip_with_clean _ _ Hend).
  unfold strip_quotes, strip_with. fold is_quote.
  rewrite (lstrip_with_all _ _ _ Hq1).
  rewrite lstrip_with_clean
    by (rewrite starts_clean_app by exact Hne; exact Hsq).
  rewrite (rstrip_with_all _ _ _ Hq2). apply rstrip_with_clean, Heq.
Qed.

(** [main] reads the path with surrounding whitespace and then surrounding
    double quotes dropped, and runs the session on it with the rest of the
    input: a path typed between quotes, with blanks before or after, is
    analysed as the path itself.  Whitespace inside the quotes is kept. *)
Theorem main_reads_quoted_path (e : env) (ws1 q1 path q2 ws2 : string)
    (rest : list string) :
  all_chars isspace ws1 = true ->
  all_chars is_quote q1 = true ->
  all_chars is_quote q2 = true ->
  all_chars isspace ws2 = true ->
  path <> "" ->
  starts_clean is_quote path = true ->
  ends_clean is_quote path = true ->
  (q1 = "" -> starts_clean isspace path = true) ->
  (q2 = "" -> ends_clean isspace path = true) ->
  main e ((ws1 +:+ q1 +:+ path +:+ q2 +:+ ws2) :: rest)
  = [Input ask_path (ws1 +:+ q1 +:+ path +:+ q2 +:+ ws2)] ;>
    run_analysis e "http://localhost:1234/v1/chat/completions"
      "mistral-nemo-instruct-2407" path rest.
Proof.
  intros. cbn [main]. rewrite path_of_line by assumption. reflexivity.
Qed.

Lemma main_reads_quoted_path_witness :
  main (world "Jane Doe" great)
       ((" " +:+ String dquote "" +:+ " my cv.pdf" +:+ String dquote "" +:+ "  ")
          :: ["no"])
  = [Input ask_path
       (" " +:+ String dquote "" +:+ " my cv.pdf" +:+ String dquote "" +:+ "  ")] ;>
    run_analysis (world "Jane Doe" great)
      "http://localhost:1234/v1/chat/completions"
      "mistral-nemo-instruct-2407" " my cv.pdf" ["no"].
Proof.
  apply (main_reads_quoted_path (world "Jane Doe" great)
           " " (String dquote "") " my cv.pdf" (String dquote "") "  " ["no"]).
  - reflexivity.
  - reflexivity.
  - reflexivity.
  - reflexivity.
  - discriminate.
  - reflexivity.
  - reflexivity.
  - discriminate.
  - discriminate.
Defined.

(** What is not a request exception is not caught: an exception of
    [requests.post] that is no [RequestException], and whatever
    [response.json()] raises on a body it cannot decode, leave [_call] as
    they are. *)
Example uncaught_exceptions_leave_call :
  (_call (world "Jane Doe" (fun _ => OtherException UnicodeError)) 0 llm "hello").2
    = Raise UnicodeError /\
  (_call (world "Jane Doe"
            (fun _ => Responded {| status_code := 200; reason := "OK";
                                   url := API_URL; body := None;
                                   json_error := ValueError |}))
         0 llm "hello").2
    = Raise ValueError.
Proof. split; reflexivity. Qed.
